(** * The payment gate of the sBTC DeFi intelligence API

    A shallow embedding of the payment gate of [src/index.ts]:
    [getPaymentTokenType], [paymentRequired], [verifyPayment] and the
    [GET /peg-health] handler, together with the properties the
    specification states about them.

    Conventions.
    - A JavaScript string is the [string] of its UTF-8 bytes; the gate
      only compares strings with ASCII literals, concatenates them and
      tests an ASCII prefix, which goes byte by byte, and changes their
      case (see [toUpperCase]).
    - Prices are integers ([Z]): the configured prices are 2000, 5000, 2
      and 5, and on integers below 2^53 the JavaScript operations used
      here ([Math.ceil (price / 1000)], [toString], truthiness) coincide
      with the integer operations below.
    - The outside world (ledger responses, clock, random UUID) is an
      explicit environment [Env]; an [async] function is a computation
      that threads the log of the upstream requests issued so far and
      may end in a thrown error. *)

From Stdlib Require Import ZArith QArith List Bool Ascii String Lia.
From Stdlib Require Import Numbers.DecimalString.
Import ListNotations.

Set Warnings "-register-all".

Open Scope string_scope.
Open Scope Z_scope.

(** ** JavaScript values *)

(** The values [response.json()] can produce, plus [undefined], which
    property access adds.  A number is kept as its [Number::toString]
    rendering: the gate never computes with a ledger number, it only
    compares it with a string (always unequal) or prints it. *)
Inductive JsValue : Type :=
| JUndefined
| JNull
| JBool (b : bool)
| JNum (shown : string)
| JStr (s : string)
| JArr (items : list JsValue)
| JObj (fields : list (string * JsValue)).

(** A thrown [Error] object. *)
Record JsError : Type := mkError { err_name : string; err_message : string }.

Definition TypeError (msg : string) : JsError := mkError "TypeError" msg.
Definition RangeError (msg : string) : JsError := mkError "RangeError" msg.

(** [Error.prototype.toString]. *)
Definition errorToString (e : JsError) : string :=
  if String.eqb (err_name e) "" then err_message e
  else if String.eqb (err_message e) "" then err_name e
  else err_name e ++ ": " ++ err_message e.

Definition hasKey (k : string) (fields : list (string * JsValue)) : bool :=
  existsb (fun kv => String.eqb k (fst kv)) fields.

(** [ToPrimitive] fails on an object that has a key [toString] of its
    own: the value under the key cannot be called and hides
    [Object.prototype.toString], and [valueOf] returns the object. *)
Definition notPrimitive : JsError :=
  TypeError "Cannot convert object to primitive value".

(** [ToString] as applied by a template literal.  An array prints its
    items joined by commas, so it throws when one of them does. *)
Fixpoint toString (v : JsValue) : JsError + string :=
  match v with
  | JUndefined => inr "undefined"
  | JNull => inr "null"
  | JBool true => inr "true"
  | JBool false => inr "false"
  | JNum shown => inr shown
  | JStr s => inr s
  | JArr items =>
      (fix join (l : list JsValue) : JsError + string :=
         match l with
         | [] => inr ""
         | x :: rest =>
             match (match x with
                    | JUndefined | JNull => inr ""
                    | _ => toString x
                    end) with
             | inl e => inl e
             | inr sx =>
                 match rest with
                 | [] => inr sx
                 | _ :: _ =>
                     match join rest with
                     | inl e => inl e
                     | inr sr => inr (sx ++ "," ++ sr)
                     end
                 end
             end
         end) items
  | JObj fields =>
      if hasKey "toString" fields then inl notPrimitive
      else inr "[object Object]"
  end.

(** Own property of a parsed JSON object. *)
Fixpoint lookupField (k : string) (fields : list (string * JsValue)) : JsValue :=
  match fields with
  | [] => JUndefined
  | (k', v) :: rest => if String.eqb k k' then v else lookupField k rest
  end.

(** [v.k] for the property names the gate reads ([tx_status], [tx_type],
    [contract_call], [contract_id], [sender_address]): none of them is
    defined on a prototype, so a primitive or an array yields
    [undefined]; [null] and [undefined] throw (message as in V8). *)
Definition getProp (v : JsValue) (k : string) : JsError + JsValue :=
  match v with
  | JUndefined =>
      inl (TypeError ("Cannot read properties of undefined (reading '" ++ k ++ "')"))
  | JNull =>
      inl (TypeError ("Cannot read properties of null (reading '" ++ k ++ "')"))
  | JObj fields => inr (lookupField k fields)
  | _ => inr JUndefined
  end.

(** [v?.k]. *)
Definition getPropOpt (v : JsValue) (k : string) : JsError + JsValue :=
  match v with
  | JUndefined | JNull => inr JUndefined
  | _ => getProp v k
  end.

(** [v !== s] for a string literal [s]. *)
Definition strictNeqStr (v : JsValue) (s : string) : bool :=
  match v with
  | JStr t => negb (String.eqb t s)
  | _ => true
  end.

(** ** The environment and the [async] monad *)

(** What [fetch] resolves to: [ok] and the outcome of [response.json()]. *)
Record FetchResponse : Type :=
  mkResponse { ok : bool; json : JsError + JsValue }.

Inductive FetchOutcome : Type :=
| Rejected (e : JsError)          (* the promise of [fetch] rejects *)
| Resolved (r : FetchResponse).

Record Env : Type := mkEnv {
  net : nat -> string -> FetchOutcome;  (* outcome of the n-th request, by URL *)
  Date_now : Z;                         (* [Date.now()], milliseconds *)
  randomUUID : string                   (* [crypto.randomUUID()] *)
}.

(** The URLs requested so far, oldest first. *)
Definition Log : Type := list string.

Definition Async (A : Type) : Type := Log -> (JsError + A) * Log.

Definition ret {A} (a : A) : Async A := fun log => (inr a, log).

Definition throw {A} (e : JsError) : Async A := fun log => (inl e, log).

Definition bind {A B} (m : Async A) (f : A -> Async B) : Async B :=
  fun log =>
    match m log with
    | (inl e, log') => (inl e, log')
    | (inr a, log') => f a log'
    end.

Definition lift {A} (r : JsError + A) : Async A :=
  match r with
  | inl e => throw e
  | inr a => ret a
  end.

(** [try { body } catch (error) { handler }]. *)
Definition try_catch {A} (body : Async A) (handler : JsError -> Async A) : Async A :=
  fun log =>
    match body log with
    | (inl e, log') => handler e log'
    | (inr a, log') => (inr a, log')
    end.

Declare Scope async_scope.
Delimit Scope async_scope with async.
Notation "x <- m ;; k" := (bind m (fun x => k))
  (at level 100, m at next level, right associativity) : async_scope.
Open Scope async_scope.

(** [await fetch(url)]: the request is issued (logged) whatever its outcome. *)
Definition fetch (env : Env) (url : string) : Async FetchResponse :=
  fun log =>
    (match net env (List.length log) url with
     | Rejected e => inl e
     | Resolved r => inr r
     end, (log ++ [url])%list).

(** ** Configuration *)

Module CONTRACT.
Definition address : string := "SPP5ZMH9NQDFD2K5CEQZ6P02AP8YPWMQ75TJW20M".
Definition name : string := "simple-oracle".
Definition standardPrice : Z := 2000.
Definition premiumPrice : Z := 5000.
Definition standardPriceSbtc : Z := 2.
Definition premiumPriceSbtc : Z := 5.
Definition recipient : string := "SPKH9AWG0ENZ87J1X0PBD4HETP22G8W22AFNVF8K".
End CONTRACT.

Definition HIRO_API : string := "https://api.hiro.so".

Record SbtcContracts : Type := mkSbtc { token : string; deposit : string }.

Definition SBTC : SbtcContracts :=
  mkSbtc "SM3VDXK3WZZSA84XXFKAFAF15NNZX32CTSG82JFQ4.sbtc-token"
         "SM3KNVZS30WM7F89SXKVVFY4SN9RMPZZ9FX929N0V.sbtc-deposit".

(** ** [verifyPayment] *)

Record VerifyResult : Type := mkVerify {
  valid : bool;
  error : option string;
  caller : option JsValue
}.

Definition invalid (reason : string) : VerifyResult :=
  mkVerify false (Some reason) None.

Definition expectedContract : string :=
  CONTRACT.address ++ "." ++ CONTRACT.name.

Definition normalizeTxid (txid : string) : string :=
  if String.prefix "0x" txid then txid else "0x" ++ txid.

Definition txUrl (txid : string) : string :=
  HIRO_API ++ "/extended/v1/tx/" ++ normalizeTxid txid.

Definition verifyPayment (env : Env) (txid : string) : Async VerifyResult :=
  try_catch
    (response <- fetch env (txUrl txid) ;;
     if negb (ok response) then ret (invalid "Transaction not found") else
     tx <- lift (json response) ;;
     tx_status <- lift (getProp tx "tx_status") ;;
     if strictNeqStr tx_status "success"
     then (shown <- lift (toString tx_status) ;;
           ret (invalid ("Transaction status: " ++ shown))) else
     tx_type <- lift (getProp tx "tx_type") ;;
     if strictNeqStr tx_type "contract_call"
     then ret (invalid "Not a contract call") else
     contract_call <- lift (getProp tx "contract_call") ;;
     contract_id <- lift (getPropOpt contract_call "contract_id") ;;
     if strictNeqStr contract_id expectedContract
     then ret (invalid "Wrong contract") else
     sender_address <- lift (getProp tx "sender_address") ;;
     ret (mkVerify true None (Some sender_address)))
    (fun error => ret (invalid ("Verification failed: " ++ errorToString error))).

(** ** [getPaymentTokenType] *)

Definition upperChar (c : ascii) : ascii :=
  let n := nat_of_ascii c in
  if ((97 <=? n) && (n <=? 122))%nat then ascii_of_nat (n - 32) else c.

Inductive Ligature : Type := Lff | Lfi | Lfl | Lffi | Lffl | Llongst | Lst.

(** The characters the gate can tell apart by case: single bytes, and
    the characters beyond ASCII that changing case turns into ASCII
    letters. *)
Inductive Glyph : Type :=
| Plain (c : ascii)          (* any other byte *)
| SharpS                     (* U+00DF, bytes C3 9F *)
| DotlessI                   (* U+0131, bytes C4 B1 *)
| LongS                      (* U+017F, bytes C5 BF *)
| CapitalSharpS              (* U+1E9E, bytes E1 BA 9E *)
| KelvinSign                 (* U+212A, bytes E2 84 AA *)
| Lig (l : Ligature).        (* U+FB00 to U+FB06, bytes EF AC 80 to 86 *)

Definition twoBytes (c1 c2 : ascii) : option Glyph :=
  match nat_of_ascii c1, nat_of_ascii c2 with
  | 195%nat, 159%nat => Some SharpS
  | 196%nat, 177%nat => Some DotlessI
  | 197%nat, 191%nat => Some LongS
  | _, _ => None
  end.

Definition threeBytes (c1 c2 c3 : ascii) : option Glyph :=
  match nat_of_ascii c1, nat_of_ascii c2, nat_of_ascii c3 with
  | 225%nat, 186%nat, 158%nat => Some CapitalSharpS
  | 226%nat, 132%nat, 170%nat => Some KelvinSign
  | 239%nat, 172%nat, 128%nat => Some (Lig Lff)
  | 239%nat, 172%nat, 129%nat => Some (Lig Lfi)
  | 239%nat, 172%nat, 130%nat => Some (Lig Lfl)
  | 239%nat, 172%nat, 131%nat => Some (Lig Lffi)
  | 239%nat, 172%nat, 132%nat => Some (Lig Lffl)
  | 239%nat, 172%nat, 133%nat => Some (Lig Llongst)
  | 239%nat, 172%nat, 134%nat => Some (Lig Lst)
  | _, _, _ => None
  end.

Fixpoint glyphs (s : string) : list Glyph :=
  match s with
  | EmptyString => []
  | String c1 rest1 =>
      match rest1 with
      | EmptyString => [Plain c1]
      | String c2 rest2 =>
          match twoBytes c1 c2 with
          | Some g => g :: glyphs rest2
          | None =>
              match rest2 with
              | EmptyString => Plain c1 :: glyphs rest1
              | String c3 rest3 =>
                  match threeBytes c1 c2 c3 with
                  | Some g => g :: glyphs rest3
                  | None => Plain c1 :: glyphs rest1
                  end
              end
          end
      end
  end.

Definition bytes (l : list nat) : string :=
  string_of_list_ascii (List.map ascii_of_nat l).

Definition upperLigature (l : Ligature) : string :=
  match l with
  | Lff => "FF" | Lfi => "FI" | Lfl => "FL" | Lffi => "FFI" | Lffl => "FFL"
  | Llongst => "ST" | Lst => "ST"
  end.

Definition upperGlyph (g : Glyph) : string :=
  match g with
  | Plain c => String (upperChar c) EmptyString
  | SharpS => "SS"
  | DotlessI => "I"
  | LongS => "S"
  | CapitalSharpS => bytes [225; 186; 158]%nat
  | KelvinSign => bytes [226; 132; 170]%nat
  | Lig l => upperLigature l
  end.

(** [String.prototype.toUpperCase], exact on the question the gate asks:
    whether the result is a given ASCII string.  The letters a-z become
    A-Z, and so do the characters beyond ASCII whose upper case is made
    of ASCII letters: U+0131 (I), U+017F (S), U+00DF (SS) and the
    ligatures U+FB00 to U+FB06.  Every other character is kept: there
    JavaScript may give other characters (U+00E9 gives U+00C9, U+0149
    gives U+02BC and N), but always with one beyond ASCII among them,
    so that neither result is an ASCII string. *)
Definition toUpperCase (s : string) : string :=
  fold_right (fun g acc => upperGlyph g ++ acc) EmptyString (glyphs s).

(** The request context [c]: [c.req.header(name)] and [c.req.query(key)],
    [None] standing for [undefined]. *)
Record Context : Type := mkContext {
  req_header : string -> option string;
  req_query : string -> option string
}.

(** Truthiness of a [string | undefined]. *)
Definition truthy (v : option string) : bool :=
  match v with
  | None => false
  | Some s => negb (String.eqb s "")
  end.

(** [a || b] on [string | undefined]. *)
Definition orElse (a b : option string) : option string :=
  if truthy a then a else b.

(** [a || 'literal']. *)
Definition orDefault (a : option string) (d : string) : string :=
  match a with
  | Some s => if truthy a then s else d
  | None => d
  end.

Inductive PaymentTokenType : Type := STX | sBTC.

Definition getPaymentTokenType (c : Context) : PaymentTokenType :=
  let queryToken := req_query c "tokenType" in
  let headerToken := req_header c "X-PAYMENT-TOKEN-TYPE" in
  let tokenStr := toUpperCase (orDefault (orElse headerToken queryToken) "STX") in
  if String.eqb tokenStr "SBTC" then sBTC else STX.

(** ** [Date.prototype.toISOString] *)

Definition msPerDay : Z := 86400000.

(** The largest time value of a valid [Date]. *)
Definition maxTime : Z := 8640000000000000.

(** Year, month (1-12) and day of month of a day number counted from
    1970-01-01, in the proleptic Gregorian calendar. *)
Definition civilFromDays (day : Z) : Z * Z * Z :=
  let z := day + 719468 in
  let era := z / 146097 in
  let doe := z - era * 146097 in
  let yoe := (doe - doe / 1460 + doe / 36524 - doe / 146096) / 365 in
  let doy := doe - (365 * yoe + yoe / 4 - yoe / 100) in
  let mp := (5 * doy + 2) / 153 in
  let d := doy - (153 * mp + 2) / 5 + 1 in
  let m := if mp <? 10 then mp + 3 else mp - 9 in
  let y := yoe + era * 400 in
  (if m <=? 2 then y + 1 else y, m, d).

Definition digit (n : Z) : ascii := ascii_of_nat (48 + Z.to_nat (n mod 10)).

(** The last [width] decimal digits of [n], most significant first. *)
Fixpoint pad (width : nat) (n : Z) : string :=
  match width with
  | O => EmptyString
  | S w => String (digit (n / 10 ^ Z.of_nat w)) (pad w n)
  end.

Definition isoYear (y : Z) : string :=
  if (0 <=? y) && (y <=? 9999) then pad 4 y
  else if y <? 0 then "-" ++ pad 6 (- y)
  else "+" ++ pad 6 y.

(** [new Date(t).toISOString()]; a time value outside the range of
    [Date] makes the date invalid and the call throw. *)
Definition toISOString (t : Z) : JsError + string :=
  if Z.abs t >? maxTime then inl (RangeError "Invalid time value")
  else
    let day := t / msPerDay in
    let ms := t mod msPerDay in
    let '(y, m, d) := civilFromDays day in
    inr (isoYear y ++ "-" ++ pad 2 m ++ "-" ++ pad 2 d ++ "T"
         ++ pad 2 (ms / 3600000) ++ ":" ++ pad 2 (ms / 60000 mod 60) ++ ":"
         ++ pad 2 (ms / 1000 mod 60) ++ "." ++ pad 3 (ms mod 1000) ++ "Z").

(** ** [paymentRequired] *)

Record WhyStacks : Type := mkWhy { message : string; benefits : list string }.

Record BaseResponse : Type := mkBase {
  body_error : string;
  code : string;
  resource : string;
  nonce : string;
  expiresAt : string;
  network : string;
  why_stacks : WhyStacks
}.

Record Payment : Type := mkPayment {
  contract : string;
  function : string;
  price : Z;
  payment_token : string;
  recipient : string
}.

Record StxOption : Type := mkStxOption { stx_price : Z; stx_method : string }.

Record SbtcOption : Type := mkSbtcOption {
  sbtc_price : Z;
  sbtc_method : string;
  sbtc_tokenContract : SbtcContracts
}.

Record PaymentOptions : Type := mkOptions { stx : StxOption; sbtc : SbtcOption }.

(** The body of the challenge denominated in sBTC. *)
Record SbtcChallenge : Type := mkSbtcChallenge {
  sbtc_base : BaseResponse;
  maxAmountRequired : string;
  payTo : string;
  tokenType : string;
  tokenContract : SbtcContracts;
  sbtc_instructions : list string
}.

(** The body of the challenge denominated in STX. *)
Record StxChallenge : Type := mkStxChallenge {
  stx_base : BaseResponse;
  payment : Payment;
  paymentOptions : PaymentOptions;
  stx_instructions : list string
}.

(** The JSON bodies the priced handlers answer with; [Data] is the
    payload of the resource.  The payer is returned under the key
    [caller], and under the key [agentId] by [POST /agent-intel]. *)
Inductive Body (Data : Type) : Type :=
| SbtcBody (b : SbtcChallenge)
| StxBody (b : StxChallenge)
| FailureBody (failure : string) (details : option string)
| DataBody (paymentVerified : bool) (payer : option JsValue) (data : Data)
| AgentDataBody (paymentVerified : bool) (agentId : option JsValue) (data : Data).

Arguments SbtcBody {Data} b.
Arguments StxBody {Data} b.
Arguments FailureBody {Data} failure details.
Arguments DataBody {Data} paymentVerified payer data.
Arguments AgentDataBody {Data} paymentVerified agentId data.

(** [c.json(body, status)]. *)
Record HttpResponse (Data : Type) : Type :=
  mkHttp { body : Body Data; status : Z }.

Arguments mkHttp {Data} body status.
Arguments body {Data} h.
Arguments status {Data} h.

(** [n.toString()] of an integer: its decimal digits, as JavaScript
    prints every integer below 10^21 (the prices passed are 2 and 5). *)
Definition numberToString (n : Z) : string := NilZero.string_of_int (Z.to_int n).

(** [Math.ceil(a / b)] for integers [a] and [b > 0]. *)
Definition ceilDiv (a b : Z) : Z := - ((- a) / b).

(** Truthiness of an optional number ([undefined] and 0 are falsy). *)
Definition truthyNum (n : option Z) : bool :=
  match n with
  | None => false
  | Some z => negb (z =? 0)
  end.

(** [n || d] on numbers. *)
Definition orNum (n : option Z) (d : Z) : Z :=
  match n with
  | Some z => if z =? 0 then d else z
  | None => d
  end.

Definition whyStacks : WhyStacks :=
  mkWhy "This API runs on Stacks - the only Bitcoin L2 with smart contracts"
        [ "sBTC: Trustless 1:1 Bitcoin peg (not wrapped)";
          "Clarity: Decidable smart contracts with no runtime surprises";
          "Bitcoin finality: Transactions settle on Bitcoin";
          "x402: Native micropayments without credit cards or accounts" ].

Definition sbtcSteps : list string :=
  [ "1. Sign an sBTC transfer transaction";
    "2. Include the signed transaction hex in X-Payment header";
    "3. Transaction will be broadcast and verified" ].

Definition stxSteps : list string :=
  [ "1. Call the contract with STX payment (or use ?tokenType=sBTC for sBTC)";
    "2. Wait for transaction confirmation";
    "3. Retry request with X-Payment header containing txid" ].

Definition paymentRequired {Data} (env : Env) (c : Context) (resource : string)
    (price : Z) (sbtcPrice : option Z) : JsError + HttpResponse Data :=
  let tokenType := getPaymentTokenType c in
  let nonce := randomUUID env in
  match toISOString (Date_now env + 10 * 60 * 1000) with
  | inl e => inl e
  | inr expiresAt =>
      let baseResponse :=
        mkBase "Payment Required" "PAYMENT_REQUIRED" resource nonce expiresAt
               "mainnet" whyStacks in
      let stxChallenge :=
        mkHttp
          (StxBody
             (mkStxChallenge baseResponse
                (mkPayment (CONTRACT.address ++ "." ++ CONTRACT.name)
                   "call-with-stx" price "STX" CONTRACT.recipient)
                (mkOptions
                   (mkStxOption price "contract-call")
                   (mkSbtcOption (orNum sbtcPrice (ceilDiv price 1000))
                      "direct-transfer" SBTC))
                stxSteps))
          402 in
      match tokenType, sbtcPrice with
      | sBTC, Some sats =>
          if truthyNum sbtcPrice then
            inr (mkHttp
                   (SbtcBody
                      (mkSbtcChallenge baseResponse (numberToString sats)
                         CONTRACT.recipient "sBTC" SBTC sbtcSteps))
                   402)
          else inr stxChallenge
      | _, _ => inr stxChallenge
      end
  end.

(** ** The [GET /peg-health] handler *)

Section PegHealth.

(** The report computed once the payment is verified
    ([calculatePegHealth], [fetchSbtcMetrics] and the fields derived
    from them): floating-point analytics outside the gate, taken as
    given. *)
Variable PegReport : Type.
Variable gatherPegHealth : Env -> Async PegReport.

Definition pegHealthHandler (env : Env) (c : Context)
  : Async (HttpResponse PegReport) :=
  let paymentTxid := req_header c "X-Payment" in
  match paymentTxid with
  | Some txid =>
      if truthy paymentTxid then
        verification <- verifyPayment env txid ;;
        if negb (valid verification) then
          ret (mkHttp (FailureBody "Payment verification failed"
                         (error verification)) 403)
        else
          report <- gatherPegHealth env ;;
          ret (mkHttp (DataBody true (caller verification) report) 200)
      else
        lift (paymentRequired env c "/peg-health"
                CONTRACT.standardPrice (Some CONTRACT.standardPriceSbtc))
  | None =>
      lift (paymentRequired env c "/peg-health"
              CONTRACT.standardPrice (Some CONTRACT.standardPriceSbtc))
  end.

End PegHealth.

(** * Specification-side definitions *)

(** ** What the ledger said about a transaction *)

(** The outcome of the lookup [verifyPayment env txid] issues when the
    log is [log]. *)
Definition ledgerOutcome (env : Env) (log : Log) (txid : string) : FetchOutcome :=
  net env (List.length log) (txUrl txid).

(** A field of the transaction object the ledger returned. *)
Definition field (tx : JsValue) (k : string) : JsValue :=
  match tx with
  | JObj fields => lookupField k fields
  | _ => JUndefined
  end.

Definition txStatus (tx : JsValue) : JsValue := field tx "tx_status".
Definition txType (tx : JsValue) : JsValue := field tx "tx_type".
Definition callTarget (tx : JsValue) : JsValue :=
  field (field tx "contract_call") "contract_id".
Definition senderAddress (tx : JsValue) : JsValue := field tx "sender_address".

Definition nullish (v : JsValue) : bool :=
  match v with
  | JUndefined | JNull => true
  | _ => false
  end.

(** The lookup succeeded with the response [r] whose body parsed to [tx]. *)
Definition lookedUp (o : FetchOutcome) (tx : JsValue) : Prop :=
  exists r, o = Resolved r /\ ok r = true /\ json r = inr tx.

(** The ledger returned the transaction [tx]. *)
Definition found (o : FetchOutcome) (tx : JsValue) : Prop :=
  lookedUp o tx /\ nullish tx = false.

(** All three checks on a transaction pass. *)
Definition paysContract (tx : JsValue) : Prop :=
  txStatus tx = JStr "success" /\
  txType tx = JStr "contract_call" /\
  callTarget tx = JStr expectedContract.






(** The verdict of one call, the log dropped. *)
Definition verdict (env : Env) (txid : string) (log : Log) : JsError + VerifyResult :=
  fst (verifyPayment env txid log).

(** Two calls in a row with the same proof token. *)
Definition verifyTwice (env : Env) (txid : string) : Async (VerifyResult * VerifyResult) :=
  first <- verifyPayment env txid ;;
  second <- verifyPayment env txid ;;
  ret (first, second).

(** The checks [verifyPayment] runs on a transaction the ledger returned,
    as a pure function (see [verify_found]). *)
Definition judge (tx : JsValue) : VerifyResult :=
  if strictNeqStr (txStatus tx) "success"
  then match toString (txStatus tx) with
       | inr shown => invalid ("Transaction status: " ++ shown)
       | inl e => invalid ("Verification failed: " ++ errorToString e)
       end
  else if strictNeqStr (txType tx) "contract_call"
  then invalid "Not a contract call"
  else if strictNeqStr (callTarget tx) expectedContract
  then invalid "Wrong contract"
  else mkVerify true None (Some (senderAddress tx)).


(** ** Sample ledger answers *)

Definition sampleSender : string := "SP2J6ZY48GV1EZ5V2V5RB9MP66SW86PYKKNRV9EJ7".

Definition sampleTx (status kind target : string) : JsValue :=
  JObj [ ("tx_id", JStr "0xabc123");
         ("tx_status", JStr status);
         ("tx_type", JStr kind);
         ("contract_call", JObj [ ("contract_id", JStr target);
                                  ("function_name", JStr "call-with-stx") ]);
         ("sender_address", JStr sampleSender) ].

Definition paidTx : JsValue := sampleTx "success" "contract_call" expectedContract.
Definition pendingTx : JsValue := sampleTx "pending" "contract_call" expectedContract.

(** A world whose ledger answers every request with [o]. *)
Definition worldWith (o : FetchOutcome) : Env :=
  mkEnv (fun _ _ => o) 1700000000123 "0b0e7a4c-5d2f-4c3a-9f6e-2a1d8c7b6e5f".

Definition answering (tx : JsValue) : FetchOutcome :=
  Resolved (mkResponse true (inr tx)).


Definition notFound404 : FetchOutcome :=
  Resolved (mkResponse false (inl (mkError "SyntaxError" "Unexpected token"))).

(** ** The token-type rule, in the words of the specification *)

Definition lowerChar (c : ascii) : ascii :=
  let n := nat_of_ascii c in
  if ((65 <=? n) && (n <=? 90))%nat then ascii_of_nat (n + 32) else c.

Definition foldLigature (l : Ligature) : string :=
  match l with
  | Lff => "ff" | Lfi => "fi" | Lfl => "fl" | Lffi => "ffi" | Lffl => "ffl"
  | Llongst => "st" | Lst => "st"
  end.

Definition foldGlyph (g : Glyph) : string :=
  match g with
  | Plain c => String (lowerChar c) EmptyString
  | SharpS => "ss"
  | DotlessI => bytes [196; 177]%nat
  | LongS => "s"
  | CapitalSharpS => "ss"
  | KelvinSign => "k"
  | Lig l => foldLigature l
  end.

(** Unicode case folding, exact on whether the result is a given ASCII
    string: A-Z become a-z, and the characters beyond ASCII that fold to
    ASCII letters become these (U+017F s, U+212A k, U+00DF and U+1E9E
    ss, the ligatures); every other character is kept. *)
Definition caseFold (s : string) : string :=
  fold_right (fun g acc => foldGlyph g ++ acc) EmptyString (glyphs s).

(** Equality of two strings up to case: they fold to the same string. *)
Definition eqNoCase (a b : string) : bool :=
  String.eqb (caseFold a) (caseFold b).

(** The ticker of the pegged asset. *)
Definition peggedTicker : string := "sBTC".

(** The token type a hint stands for. *)
Definition tokenTypeOf (hint : option string) : PaymentTokenType :=
  match hint with
  | Some v => if eqNoCase v peggedTicker then sBTC else STX
  | None => STX
  end.

(** Header first, query parameter when there is no header. *)
Definition selectTokenType (header query : option string) : PaymentTokenType :=
  match header with
  | Some _ => tokenTypeOf header
  | None => tokenTypeOf query
  end.

(** An empty value read as no value. *)
Definition nonEmpty (v : option string) : option string :=
  if truthy v then v else None.

Definition allChars : list ascii := List.map ascii_of_nat (List.seq 0 256).

(** A request with the given token-type header, query parameter and
    proof header, and nothing else. *)
Definition request (tokenHeader tokenQuery proof : option string) : Context :=
  mkContext
    (fun name =>
       if String.eqb name "X-PAYMENT-TOKEN-TYPE" then tokenHeader
       else if String.eqb name "X-Payment" then proof
       else None)
    (fun key => if String.eqb key "tokenType" then tokenQuery else None).

(** ** The instant an ISO timestamp denotes *)

(** Leap years and day numbers as ECMAScript defines them. *)
Definition isLeapYear (y : Z) : bool :=
  (y mod 4 =? 0) && (negb (y mod 100 =? 0) || (y mod 400 =? 0)).

(** The day number of the first day of year [y]. *)
Definition dayFromYear (y : Z) : Z :=
  365 * (y - 1970) + (y - 1969) / 4 - (y - 1901) / 100 + (y - 1601) / 400.

Definition leapDay (y m : Z) : Z :=
  if isLeapYear y && (2 <? m) then 1 else 0.

(** Days of year [y] before month [m] (1-12). *)
Definition daysBeforeMonth (y m : Z) : Z :=
  nth (Z.to_nat (m - 1)) [0; 31; 59; 90; 120; 151; 181; 212; 243; 273; 304; 334] 0
  + leapDay y m.

Definition daysInMonth (y m : Z) : Z :=
  if m =? 2 then (if isLeapYear y then 29 else 28)
  else if (m =? 4) || (m =? 6) || (m =? 9) || (m =? 11) then 30
  else 31.

Definition makeDay (y m d : Z) : Z :=
  dayFromYear y + daysBeforeMonth y m + (d - 1).

Definition digitValue (c : ascii) : option Z :=
  let n := nat_of_ascii c in
  if ((48 <=? n) && (n <=? 57))%nat then Some (Z.of_nat (n - 48)) else None.

(** Reads exactly [width] decimal digits. *)
Fixpoint readDigits (width : nat) (acc : Z) (s : string) : option (Z * string) :=
  match width, s with
  | O, _ => Some (acc, s)
  | S w, String c rest =>
      match digitValue c with
      | Some v => readDigits w (acc * 10 + v) rest
      | None => None
      end
  | S _, EmptyString => None
  end.

Definition expect (c : ascii) (s : string) : option string :=
  match s with
  | String c' rest => if Ascii.eqb c c' then Some rest else None
  | EmptyString => None
  end.

(** A four-digit year, or a sign and six digits. *)
Definition readYear (s : string) : option (Z * string) :=
  match s with
  | String c rest =>
      if Ascii.eqb c "+" then readDigits 6 0 rest
      else if Ascii.eqb c "-" then
        match readDigits 6 0 rest with
        | Some (y, rest') => Some (- y, rest')
        | None => None
        end
      else readDigits 4 0 s
  | EmptyString => None
  end.

Definition andThen {A B} (o : option A) (f : A -> option B) : option B :=
  match o with
  | Some a => f a
  | None => None
  end.

(** The time value of a timestamp [YYYY-MM-DDTHH:mm:ss.sssZ] (or with an
    expanded year), [None] when the text is not one. *)
Definition instantOfISO (s : string) : option Z :=
  andThen (readYear s) (fun '(y, s) =>
  andThen (expect "-" s) (fun s =>
  andThen (readDigits 2 0 s) (fun '(m, s) =>
  andThen (expect "-" s) (fun s =>
  andThen (readDigits 2 0 s) (fun '(d, s) =>
  andThen (expect "T" s) (fun s =>
  andThen (readDigits 2 0 s) (fun '(h, s) =>
  andThen (expect ":" s) (fun s =>
  andThen (readDigits 2 0 s) (fun '(mi, s) =>
  andThen (expect ":" s) (fun s =>
  andThen (readDigits 2 0 s) (fun '(sec, s) =>
  andThen (expect "." s) (fun s =>
  andThen (readDigits 3 0 s) (fun '(ms, s) =>
  if String.eqb s "Z"
     && (1 <=? m) && (m <=? 12) && (1 <=? d) && (d <=? daysInMonth y m)
     && (h <? 24) && (mi <? 60) && (sec <? 60)
  then Some (makeDay y m d * msPerDay
             + h * 3600000 + mi * 60000 + sec * 1000 + ms)
  else None))))))))))))).

(** [P] holds of the [n] integers from [z] on. *)
Fixpoint allFrom (n : nat) (z : Z) (P : Z -> bool) : bool :=
  match n with
  | O => true
  | S k => P z && allFrom k (z + 1) P
  end.

(** ** Reading a challenge *)

Definition challengeBase {Data} (b : Body Data) : option BaseResponse :=
  match b with
  | SbtcBody c => Some (sbtc_base c)
  | StxBody c => Some (stx_base c)
  | _ => None
  end.

(** The clock leaves room for the expiry to be a valid [Date]. *)
Definition clockInRange (env : Env) : Prop :=
  Z.abs (Date_now env + 600000) <= maxTime.

(** The calendar date of day [doe] of the 400-year era that starts on
    0000-03-01 is a date of the calendar and is that day. *)
Definition civilChecks (doe : Z) : bool :=
  let day := doe - 719468 in
  let '(y, m, d) := civilFromDays day in
  (0 <=? y) && (y <=? 400)
  && (1 <=? m) && (m <=? 12) && (1 <=? d) && (d <=? daysInMonth y m)
  && (makeDay y m d =? day).

(** An integer a JavaScript number holds exactly, as every price is. *)
Definition safeInteger (n : Z) : Prop := Z.abs n < 2 ^ 53.

(** The sBTC prices of the configuration, the ones the handlers pass. *)
Definition configuredSbtcPrice (sats : Z) : Prop :=
  sats = CONTRACT.standardPriceSbtc \/ sats = CONTRACT.premiumPriceSbtc.

(** * The rest of the API *)

(** ** The data fetchers *)

Definition TENERO_API : string := "https://api.tenero.io".

Definition COINGECKO_PRICE : string :=
  "https://api.coingecko.com/api/v3/simple/price?ids=bitcoin&vs_currencies=usd".

(** Truthiness of a value: a number is falsy when it is 0, -0 (both
    print as "0") or NaN. *)
Definition truthyValue (v : JsValue) : bool :=
  match v with
  | JUndefined | JNull => false
  | JBool b => b
  | JNum shown => negb (String.eqb shown "0" || String.eqb shown "NaN")
  | JStr s => negb (String.eqb s "")
  | JArr _ | JObj _ => true
  end.

(** The number literal 97000, the fallback price. *)
Definition fallbackBtcPrice : JsValue := JNum "97000".

(** The value is whatever the price service sent under [bitcoin.usd],
    if truthy; the declared type [number] is not checked. *)
Definition fetchBtcPrice (env : Env) : Async JsValue :=
  try_catch
    (res <- fetch env COINGECKO_PRICE ;;
     data <- lift (json res) ;;
     bitcoin <- lift (getPropOpt data "bitcoin") ;;
     usd <- lift (getPropOpt bitcoin "usd") ;;
     ret (if truthyValue usd then usd else fallbackBtcPrice))
    (fun _ => ret fallbackBtcPrice).

(** A figure of the metrics.  The floating-point conversions are kept as
    they are applied, not computed. *)
Inductive Figure : Type :=
| Given (v : JsValue)              (* a value passed on, or a literal *)
| ParseIntPer1e8 (v : JsValue)     (* [parseInt(v) / 1e8] *)
| ParseFloat (v : JsValue).        (* [parseFloat(v)] *)

(** [parseInt(v) / 1e8]: [parseInt] begins with [ToString(v)], which may
    throw; the number is not computed. *)
Definition parseIntPer1e8 (v : JsValue) : JsError + Figure :=
  match toString v with
  | inl e => inl e
  | inr _ => inr (ParseIntPer1e8 v)
  end.

(** [parseFloat(v)], likewise. *)
Definition parseFloat (v : JsValue) : JsError + Figure :=
  match toString v with
  | inl e => inl e
  | inr _ => inr (ParseFloat v)
  end.

(** [ToNumber(v)], as arithmetic applies it: it throws when
    [ToPrimitive] does, which is when [ToString] does; the number is not
    computed. *)
Definition toNumber (v : JsValue) : JsError + unit :=
  match toString v with
  | inl e => inl e
  | inr _ => inr tt
  end.

Definition zero : Figure := Given (JNum "0").

Module Metrics.
Record t : Type := mk {
  totalSupply : Figure;
  holders : Figure;
  price : Figure;
  volume24h : Figure
}.
End Metrics.

(** [fetch(url).then(r => r.json()).catch(() => null)]. *)
Definition fetchJsonOrNull (env : Env) (url : string) : Async JsValue :=
  try_catch
    (r <- fetch env url ;; lift (json r))
    (fun _ => ret JNull).

Definition supplyUrl : string :=
  HIRO_API ++ "/extended/v1/tokens/ft/" ++ token SBTC.

Definition teneroUrl : string :=
  TENERO_API ++ "/v1/stacks/tokens/" ++ token SBTC.

(** The two requests of [Promise.all] are issued one after the other
    before either is awaited, which is the order of the log. *)
Definition fetchSbtcMetrics (env : Env) : Async Metrics.t :=
  try_catch
    (supplyRes <- fetchJsonOrNull env supplyUrl ;;
     teneroRes <- fetchJsonOrNull env teneroUrl ;;
     total_supply <- lift (getPropOpt supplyRes "total_supply") ;;
     totalSupply <-
       (if truthyValue total_supply then lift (parseIntPer1e8 total_supply)
        else ret zero) ;;
     holders_count <- lift (getPropOpt supplyRes "holders_count") ;;
     let holders :=
       if truthyValue holders_count then Given holders_count else zero in
     data <- lift (getPropOpt teneroRes "data") ;;
     price_usd <- lift (getPropOpt data "price_usd") ;;
     price <-
       (if truthyValue price_usd then lift (parseFloat price_usd)
        else (btc <- fetchBtcPrice env ;; ret (Given btc))) ;;
     volume_24h_usd <- lift (getPropOpt data "volume_24h_usd") ;;
     volume24h <-
       (if truthyValue volume_24h_usd then lift (parseFloat volume_24h_usd)
        else ret zero) ;;
     ret (Metrics.mk totalSupply holders price volume24h))
    (fun _ =>
       btcPrice <- fetchBtcPrice env ;;
       ret (Metrics.mk zero zero (Given btcPrice) zero)).

(** ** The protocol table *)

Inductive RiskLevel : Type := low | medium | high.

Record Protocol : Type := mkProtocol {
  protocol : string;
  type : string;
  tvlEstimate : Z;
  apyEstimate : Q;          (* the decimal literal *)
  riskLevel : RiskLevel;
  description : string
}.

Definition fetchProtocolData : list Protocol :=
  [ mkProtocol "Zest Protocol" "lending" 15000000 (45 # 10) low
      "Overcollateralized Bitcoin lending with conservative LTV ratios";
    mkProtocol "ALEX" "dex-lp" 45000000 (128 # 10) medium
      "sBTC-STX and sBTC-USDA liquidity pools with trading fees";
    mkProtocol "Velar" "dex-lp" 8000000 (185 # 10) medium
      "Concentrated liquidity pools with higher yield potential";
    mkProtocol "StackingDAO" "liquid-staking" 120000000 (82 # 10) low
      "Liquid staking - use stSTX as collateral to borrow against sBTC" ].

(** ** The other priced handlers *)

(** A request with a body: [c.req.json()] is [req_json]. *)
Record PostContext : Type := mkPost {
  context : Context;
  req_json : JsError + JsValue
}.

Section PricedHandlers.

(** The payload each handler computes once the payment is verified
    (concurrent fetches and floating-point analytics), taken as given;
    the handler of [POST /agent-intel] reads the request body first, and
    returns the payer under the key [agentId]. *)
Variable Data : Type.
Variable gatherYield : Env -> Async Data.
Variable gatherAgentIntel : Env -> JsError + JsValue -> Async Data.
Variable gatherAlpha : Env -> Async Data.

Definition yieldOpportunitiesHandler (env : Env) (c : Context)
  : Async (HttpResponse Data) :=
  let paymentTxid := req_header c "X-Payment" in
  match paymentTxid with
  | Some txid =>
      if truthy paymentTxid then
        verification <- verifyPayment env txid ;;
        if negb (valid verification) then
          ret (mkHttp (FailureBody "Payment verification failed"
                         (error verification)) 403)
        else
          payload <- gatherYield env ;;
          ret (mkHttp (DataBody true (caller verification) payload) 200)
      else
        lift (paymentRequired env c "/yield-opportunities"
                CONTRACT.standardPrice (Some CONTRACT.standardPriceSbtc))
  | None =>
      lift (paymentRequired env c "/yield-opportunities"
              CONTRACT.standardPrice (Some CONTRACT.standardPriceSbtc))
  end.

Definition agentIntelHandler (env : Env) (c : PostContext)
  : Async (HttpResponse Data) :=
  let paymentTxid := req_header (context c) "X-Payment" in
  match paymentTxid with
  | Some txid =>
      if truthy paymentTxid then
        verification <- verifyPayment env txid ;;
        if negb (valid verification) then
          ret (mkHttp (FailureBody "Payment verification failed"
                         (error verification)) 403)
        else
          payload <- gatherAgentIntel env (req_json c) ;;
          ret (mkHttp (AgentDataBody true (caller verification) payload) 200)
      else
        lift (paymentRequired env (context c) "/agent-intel"
                CONTRACT.premiumPrice (Some CONTRACT.premiumPriceSbtc))
  | None =>
      lift (paymentRequired env (context c) "/agent-intel"
              CONTRACT.premiumPrice (Some CONTRACT.premiumPriceSbtc))
  end.

Definition alphaHandler (env : Env) (c : Context)
  : Async (HttpResponse Data) :=
  let paymentTxid := req_header c "X-Payment" in
  match paymentTxid with
  | Some txid =>
      if truthy paymentTxid then
        verification <- verifyPayment env txid ;;
        if negb (valid verification) then
          ret (mkHttp (FailureBody "Payment verification failed"
                         (error verification)) 403)
        else
          payload <- gatherAlpha env ;;
          ret (mkHttp (DataBody true (caller verification) payload) 200)
      else
        lift (paymentRequired env c "/alpha"
                CONTRACT.premiumPrice (Some CONTRACT.premiumPriceSbtc))
  | None =>
      lift (paymentRequired env c "/alpha"
              CONTRACT.premiumPrice (Some CONTRACT.premiumPriceSbtc))
  end.

End PricedHandlers.

(** ** Sample requests and answers *)

Definition sampleWorld : Env := worldWith (answering paidTx).

(** A successful transfer of the sBTC token, as the sBTC challenge asks. *)
Definition sbtcTransferTx : JsValue :=
  sampleTx "success" "contract_call" (token SBTC).

Definition sampleBase (path : string) : BaseResponse :=
  mkBase "Payment Required" "PAYMENT_REQUIRED" path (randomUUID sampleWorld)
         "2023-11-14T22:23:20.123Z" "mainnet" whyStacks.

Definition sampleSbtcChallenge : SbtcChallenge :=
  mkSbtcChallenge (sampleBase "/peg-health") "2" CONTRACT.recipient "sBTC"
                  SBTC sbtcSteps.

Definition sampleStxChallenge : StxChallenge :=
  mkStxChallenge (sampleBase "/peg-health")
    (mkPayment expectedContract "call-with-stx" 2000 "STX" CONTRACT.recipient)
    (mkOptions (mkStxOption 2000 "contract-call")
               (mkSbtcOption 2 "direct-transfer" SBTC))
    stxSteps.

(** A successful call to the payment contract that pays nothing, with
    other fields in another order. *)
Definition emptyCallTx : JsValue :=
  JObj [ ("sender_address", JStr sampleSender);
         ("contract_call",
          JObj [ ("contract_id", JStr expectedContract);
                 ("function_name", JStr "transfer-nothing") ]);
         ("tx_type", JStr "contract_call");
         ("fee_rate", JStr "0");
         ("tx_status", JStr "success") ].

(** ** What the data services said *)

(** The body of an answer as [fetchJsonOrNull] sees it. *)
Definition jsonOrNull (o : FetchOutcome) : JsValue :=
  match o with
  | Resolved r => match json r with
                  | inr v => v
                  | inl _ => JNull
                  end
  | Rejected _ => JNull
  end.

(** The price an answer of the price service quotes, [undefined] when it
    quotes none. *)
Definition quotedUsd (o : FetchOutcome) : JsValue :=
  field (field (jsonOrNull o) "bitcoin") "usd".

(** The price [fetchBtcPrice] makes of an answer. *)
Definition btcPriceOf (o : FetchOutcome) : JsValue :=
  if truthyValue (quotedUsd o) then quotedUsd o else fallbackBtcPrice.

(** A world where the request number [n] is answered by [answers n]
    (and by a network failure past the end of the list). *)
Definition scripted (answers : list FetchOutcome) : Env :=
  mkEnv (fun n _ => nth n answers (Rejected (TypeError "fetch failed")))
        1700000000123 "0b0e7a4c-5d2f-4c3a-9f6e-2a1d8c7b6e5f".

Definition rateLimited : FetchOutcome :=
  Resolved (mkResponse false
              (inr (JObj [("status", JObj [("error_code", JNum "429")])]))).

Definition quote (usd : JsValue) : FetchOutcome :=
  Resolved (mkResponse true (inr (JObj [("bitcoin", JObj [("usd", usd)])]))).

(** ** [POST /simulate] *)

(** [String.prototype.toLowerCase] on the letters A-Z; every other
    character is kept.  Exact on ASCII strings; beyond ASCII JavaScript
    maps further characters, one of them (U+212A, the Kelvin sign) to an
    ASCII letter. *)
Fixpoint toLowerCase (s : string) : string :=
  match s with
  | EmptyString => EmptyString
  | String c rest => String (lowerChar c) (toLowerCase rest)
  end.

Definition isAsciiChar (c : ascii) : bool := (nat_of_ascii c <? 128)%nat.

Fixpoint isAscii (s : string) : bool :=
  match s with
  | EmptyString => true
  | String c rest => isAsciiChar c && isAscii rest
  end.

(** [hay.includes(needle)]. *)
Fixpoint includes (hay needle : string) : bool :=
  String.prefix needle hay
  || match hay with
     | EmptyString => false
     | String _ rest => includes rest needle
     end.

(** The callback of [find]:
    [p.protocol.toLowerCase().includes(body.protocol.toLowerCase())]. *)
Definition matchesProtocol (body : JsValue) (p : Protocol) : JsError + bool :=
  match getProp body "protocol" with
  | inl e => inl e
  | inr (JStr wanted) =>
      inr (includes (toLowerCase (protocol p)) (toLowerCase wanted))
  | inr JUndefined =>
      inl (TypeError "Cannot read properties of undefined (reading 'toLowerCase')")
  | inr JNull =>
      inl (TypeError "Cannot read properties of null (reading 'toLowerCase')")
  | inr _ => inl (TypeError "body.protocol.toLowerCase is not a function")
  end.

(** [protocols.find(...)], [None] standing for [undefined]. *)
Fixpoint findProtocol (body : JsValue) (protocols : list Protocol)
  : JsError + option Protocol :=
  match protocols with
  | [] => inr None
  | p :: rest =>
      match matchesProtocol body p with
      | inl e => inl e
      | inr true => inr (Some p)
      | inr false => findProtocol body rest
      end
  end.

(** The bodies [POST /simulate] answers with; its 200 body is the
    simulation alone. *)
Inductive SimulateBody (Sim : Type) : Type :=
| SimGate (b : Body Empty_set)
| SimNotFound (failure : string) (available : list string)
| SimResult (simulation : Sim).

Arguments SimGate {Sim} b.
Arguments SimNotFound {Sim} failure available.
Arguments SimResult {Sim} simulation.

Record SimulateResponse (Sim : Type) : Type :=
  mkSim { sim_body : SimulateBody Sim; sim_status : Z }.

Arguments mkSim {Sim} sim_body sim_status.
Arguments sim_body {Sim} s.
Arguments sim_status {Sim} s.

Definition gateResponse {Sim} (r : HttpResponse Empty_set) : SimulateResponse Sim :=
  mkSim (SimGate (body r)) (status r).

Section Simulate.

(** The simulation object built from the body, the price and the
    protocol: floating-point arithmetic, taken as given.  The
    conversions to number that can throw are run by the handler before
    it is built. *)
Variable Sim : Type.
Variable simulationOf : Env -> JsValue -> JsValue -> Protocol -> Sim.

Definition simulateChallenge (env : Env) (c : PostContext)
  : Async (SimulateResponse Sim) :=
  match paymentRequired env (context c) "/simulate"
          CONTRACT.premiumPrice (Some CONTRACT.premiumPriceSbtc) with
  | inl e => throw e
  | inr r => ret (gateResponse r)
  end.

Definition simulateHandler (env : Env) (c : PostContext)
  : Async (SimulateResponse Sim) :=
  let paymentTxid := req_header (context c) "X-Payment" in
  match paymentTxid with
  | Some txid =>
      if truthy paymentTxid then
        verification <- verifyPayment env txid ;;
        if negb (valid verification) then
          ret (mkSim (SimGate (FailureBody "Payment verification failed"
                                 (error verification))) 403)
        else
          body <- lift (req_json c) ;;
          btcPrice <- fetchBtcPrice env ;;
          let protocols := fetchProtocolData in
          selected <- lift (findProtocol body protocols) ;;
          match selected with
          | None =>
              ret (mkSim (SimNotFound "Protocol not found"
                            (List.map protocol protocols)) 400)
          | Some p =>
              (* [body.amountBtc * btcPrice] *)
              amountBtc <- lift (getProp body "amountBtc") ;;
              _ <- lift (toNumber amountBtc) ;;
              _ <- lift (toNumber btcPrice) ;;
              (* [body.leverage || 1] *)
              given <- lift (getProp body "leverage") ;;
              let leverage := if truthyValue given then given else JNum "1" in
              (* [case 'loop': Math.pow(0.75, leverage)] *)
              action <- lift (getProp body "action") ;;
              _ <- (if strictNeqStr action "loop" then ret tt
                    else lift (toNumber leverage)) ;;
              ret (mkSim (SimResult (simulationOf env body btcPrice p)) 200)
          end
      else simulateChallenge env c
  | None => simulateChallenge env c
  end.

End Simulate.

(** ** The priced routes *)

(** The four priced routes whose 200 body carries [paymentVerified] and
    the payer. *)
Inductive Endpoint : Type := YieldOpportunities | PegHealth | AgentIntel | Alpha.

Definition pathOf (e : Endpoint) : string :=
  match e with
  | YieldOpportunities => "/yield-opportunities"
  | PegHealth => "/peg-health"
  | AgentIntel => "/agent-intel"
  | Alpha => "/alpha"
  end.

(** The price list: standard and premium tier. *)
Definition priceOf (e : Endpoint) : Z :=
  match e with
  | YieldOpportunities | PegHealth => 2000
  | AgentIntel | Alpha => 5000
  end.

Definition sbtcPriceOf (e : Endpoint) : Z :=
  match e with
  | YieldOpportunities | PegHealth => 2
  | AgentIntel | Alpha => 5
  end.

Section Routes.

Variable Data : Type.
Variable gatherYield gatherPegHealth gatherAlpha : Env -> Async Data.
Variable gatherAgentIntel : Env -> JsError + JsValue -> Async Data.

Definition handle (e : Endpoint) (env : Env) (c : PostContext)
  : Async (HttpResponse Data) :=
  match e with
  | YieldOpportunities =>
      yieldOpportunitiesHandler Data gatherYield env (context c)
  | PegHealth => pegHealthHandler Data gatherPegHealth env (context c)
  | AgentIntel => agentIntelHandler Data gatherAgentIntel env c
  | Alpha => alphaHandler Data gatherAlpha env (context c)
  end.

(** The payload computation of each route. *)
Definition gatherOf (e : Endpoint) (env : Env) (c : PostContext) : Async Data :=
  match e with
  | YieldOpportunities => gatherYield env
  | PegHealth => gatherPegHealth env
  | AgentIntel => gatherAgentIntel env (req_json c)
  | Alpha => gatherAlpha env
  end.

End Routes.

(** A [POST] request with the given headers, query and body. *)
Definition post (tokenHeader tokenQuery proof : option string)
    (body : JsError + JsValue) : PostContext :=
  mkPost (request tokenHeader tokenQuery proof) body.

Definition zest : Protocol :=
  mkProtocol "Zest Protocol" "lending" 15000000 (45 # 10) low
    "Overcollateralized Bitcoin lending with conservative LTV ratios".

Definition stackingDao : Protocol :=
  mkProtocol "StackingDAO" "liquid-staking" 120000000 (82 # 10) low
    "Liquid staking - use stSTX as collateral to borrow against sBTC".

Definition simulateBody (wanted : JsValue) : JsValue :=
  JObj [ ("action", JStr "deposit"); ("protocol", wanted);
         ("amountBtc", JNum "0.5") ].

(** The ledger confirms the payment, the price service quotes 64000. *)
Definition paidWorld : Env :=
  scripted [answering paidTx; quote (JNum "64000")].

(** ** Values the conversions accept *)

(** [ToPrimitive] succeeds on the value. *)
Definition converts (v : JsValue) : bool :=
  match toString v with
  | inr _ => true
  | inl _ => false
  end.

(** A figure that is left out (falsy), or present and convertible. *)
Definition usable (v : JsValue) : bool := negb (truthyValue v) || converts v.



(** An object that cannot be converted to a primitive. *)
Definition unprintable : JsValue := JObj [("toString", JNum "1")].

(** The conversions to number [POST /simulate] applies once a protocol
    is selected, in the order of the handler (see [simulate_paid]). *)
Definition simulateChecks (body btcPrice : JsValue) : JsError + unit :=
  match getProp body "amountBtc" with
  | inl e => inl e
  | inr amountBtc =>
      match toNumber amountBtc with
      | inl e => inl e
      | inr _ =>
          match toNumber btcPrice with
          | inl e => inl e
          | inr _ =>
              match getProp body "leverage" with
              | inl e => inl e
              | inr given =>
                  match getProp body "action" with
                  | inl e => inl e
                  | inr action =>
                      if strictNeqStr action "loop" then inr tt
                      else toNumber (if truthyValue given then given
                                     else JNum "1")
                  end
              end
          end
      end
  end.

Definition oddAmountBody : JsValue :=
  JObj [ ("action", JStr "deposit"); ("protocol", JStr "ALEX");
         ("amountBtc", unprintable) ].

Definition alex : Protocol :=
  mkProtocol "ALEX" "dex-lp" 45000000 (128 # 10) medium
    "sBTC-STX and sBTC-USDA liquidity pools with trading fees".
(** * Properties *)

(** ** Lemmas on JavaScript values *)

Lemma strictNeqStr_false (v : JsValue) (s : string) :
  strictNeqStr v s = false <-> v = JStr s.
Proof.
  destruct v; simpl; split; try discriminate.
  - intros H. apply negb_false_iff, String.eqb_eq in H. now subst.
  - intros H. injection H as ->. now rewrite String.eqb_refl.
Qed.

Lemma strictNeqStr_true (v : JsValue) (s : string) :
  strictNeqStr v s = true <-> v <> JStr s.
Proof.
  rewrite <- strictNeqStr_false. destruct (strictNeqStr v s); split; congruence.
Qed.

Lemma getProp_field (v : JsValue) (k : string) :
  nullish v = false -> getProp v k = inr (field v k).
Proof. destruct v; simpl; intros H; try discriminate; reflexivity. Qed.

Lemma getPropOpt_field (v : JsValue) (k : string) :
  getPropOpt v k = inr (field v k).
Proof. destruct v; reflexivity. Qed.

Lemma field_nullish (v : JsValue) (k : string) :
  nullish v = true -> field v k = JUndefined.
Proof. destruct v; simpl; intros H; try discriminate; reflexivity. Qed.

(** ** Running [verifyPayment] *)

Ltac run_verify :=
  unfold verdict, verifyPayment, try_catch, bind, fetch, lift, ret, throw,
    ledgerOutcome in *.

Lemma verify_rejected env txid log e :
  ledgerOutcome env log txid = Rejected e ->
  verifyPayment env txid log =
  (inr (invalid ("Verification failed: " ++ errorToString e)),
   (log ++ [txUrl txid])%list).
Proof. run_verify. intros ->. reflexivity. Qed.

Lemma verify_not_ok env txid log r :
  ledgerOutcome env log txid = Resolved r -> ok r = false ->
  verifyPayment env txid log =
  (inr (invalid "Transaction not found"), (log ++ [txUrl txid])%list).
Proof. run_verify. intros -> ->. reflexivity. Qed.

Lemma verify_found env txid log tx :
  found (ledgerOutcome env log txid) tx ->
  verifyPayment env txid log = (inr (judge tx), (log ++ [txUrl txid])%list).
Proof.
  intros [(r & Ho & Hok & Hjson) Htx]. run_verify.
  rewrite Ho, Hok, Hjson. cbn [negb].
  rewrite (getProp_field tx "tx_status" Htx). unfold judge.
  fold (txStatus tx).
  destruct (strictNeqStr (txStatus tx) "success");
    [destruct (toString (txStatus tx)); reflexivity|].
  rewrite (getProp_field tx "tx_type" Htx). fold (txType tx).
  destruct (strictNeqStr (txType tx) "contract_call"); [reflexivity|].
  rewrite (getProp_field tx "contract_call" Htx), getPropOpt_field.
  fold (callTarget tx).
  destruct (strictNeqStr (callTarget tx) expectedContract); [reflexivity|].
  rewrite (getProp_field tx "sender_address" Htx). reflexivity.
Qed.

(** A body that parses to [null] makes the first property access throw. *)
Lemma verify_nullish env txid log tx :
  lookedUp (ledgerOutcome env log txid) tx -> nullish tx = true ->
  exists e,
    verifyPayment env txid log =
    (inr (invalid ("Verification failed: " ++ errorToString e)),
     (log ++ [txUrl txid])%list).
Proof.
  intros (r & Ho & Hok & Hjson) Htx. run_verify.
  rewrite Ho, Hok, Hjson. cbn [negb].
  destruct tx; try discriminate; eexists; reflexivity.
Qed.

Lemma verify_unparsed env txid log r e :
  ledgerOutcome env log txid = Resolved r -> ok r = true -> json r = inl e ->
  verifyPayment env txid log =
  (inr (invalid ("Verification failed: " ++ errorToString e)),
   (log ++ [txUrl txid])%list).
Proof. run_verify. intros -> -> ->. reflexivity. Qed.

Lemma judge_valid (tx : JsValue) : valid (judge tx) = true <-> paysContract tx.
Proof.
  unfold judge, paysContract.
  destruct (strictNeqStr (txStatus tx) "success") eqn:E1.
  { apply strictNeqStr_true in E1.
    destruct (toString (txStatus tx)); simpl; split; (discriminate || tauto). }
  destruct (strictNeqStr (txType tx) "contract_call") eqn:E2.
  { apply strictNeqStr_true in E2. simpl. split; [discriminate | tauto]. }
  destruct (strictNeqStr (callTarget tx) expectedContract) eqn:E3.
  { apply strictNeqStr_true in E3. simpl. split; [discriminate | tauto]. }
  apply strictNeqStr_false in E1, E2, E3. simpl. tauto.
Qed.

Lemma judge_pays (tx : JsValue) :
  paysContract tx -> judge tx = mkVerify true None (Some (senderAddress tx)).
Proof.
  intros (H1 & H2 & H3). unfold judge.
  apply strictNeqStr_false in H1, H2, H3. now rewrite H1, H2, H3.
Qed.

(** ** The failure reasons *)










(** ** The verdict on a looked-up transaction *)

(** C2: when the lookup succeeds, [verifyPayment] answers [valid: true]
    exactly when the status is "success", the type is a contract call
    and the call target is the configured contract; the payer it then
    returns is the sender address of the transaction. *)
Theorem verifyPayment_valid_iff :
  forall env txid log tx,
    lookedUp (ledgerOutcome env log txid) tx ->
    exists v,
      verdict env txid log = inr v /\
      (valid v = true <-> paysContract tx) /\
      (valid v = true -> caller v = Some (senderAddress tx)).
Proof.
  intros env txid log tx Hl. unfold verdict.
  destruct (nullish tx) eqn:Hn.
  - destruct (verify_nullish _ _ _ _ Hl Hn) as (e & ->).
    eexists; split; [reflexivity|]. simpl. split; [|discriminate].
    split; [discriminate|]. intros (H1 & _). unfold txStatus in H1.
    rewrite (field_nullish _ _ Hn) in H1. discriminate.
  - rewrite (verify_found _ _ _ tx (conj Hl Hn)).
    exists (judge tx); split; [reflexivity|]. split; [apply judge_valid|].
    intros Hv. apply judge_valid in Hv. now rewrite (judge_pays _ Hv).
Qed.

Lemma verifyPayment_valid_iff_witness :
  exists v,
    verdict (worldWith (answering paidTx)) "abc123" [] = inr v /\
    (valid v = true <-> paysContract paidTx) /\
    (valid v = true -> caller v = Some (senderAddress paidTx)).
Proof.
  apply (verifyPayment_valid_iff (worldWith (answering paidTx)) "abc123" [] paidTx).
  exists (mkResponse true (inr paidTx)). repeat split.
Defined.

(** ** Totality *)

(** C3: whatever the ledger does (the request fails, the body is not
    JSON, the JSON is not a transaction), [verifyPayment] throws nothing
    and returns a verdict: [valid: true], or [valid: false] with a
    non-empty reason. *)
Theorem verifyPayment_total :
  forall env txid log,
    exists v log',
      verifyPayment env txid log = (inr v, log') /\
      (valid v = true \/
       (valid v = false /\ exists reason, error v = Some reason /\ reason <> "")).
Proof.
  intros env txid log.
  destruct (ledgerOutcome env log txid) as [e | [[] [e | tx]]] eqn:Ho.
  - rewrite (verify_rejected _ _ _ _ Ho).
    do 2 eexists; split; [reflexivity|]. right. split; [reflexivity|].
    eexists; split; [reflexivity | discriminate].
  - rewrite (verify_unparsed _ _ _ _ e Ho eq_refl eq_refl).
    do 2 eexists; split; [reflexivity|]. right. split; [reflexivity|].
    eexists; split; [reflexivity | discriminate].
  - assert (Hl : lookedUp (ledgerOutcome env log txid) tx).
    { rewrite Ho. eexists; repeat split. }
    destruct (nullish tx) eqn:Hn.
    + destruct (verify_nullish _ _ _ _ Hl Hn) as (e & ->).
      do 2 eexists; split; [reflexivity|]. right. split; [reflexivity|].
      eexists; split; [reflexivity | discriminate].
    + rewrite (verify_found _ _ _ tx (conj Hl Hn)).
      do 2 eexists; split; [reflexivity|]. unfold judge.
      repeat match goal with
             | |- context [if ?b then _ else _] => destruct b
             | |- context [toString ?v] => destruct (toString v)
             end; simpl;
        first [ left; reflexivity
              | right; split; [reflexivity|];
                eexists; split; [reflexivity | discriminate] ].
  - rewrite (verify_not_ok _ _ _ _ Ho eq_refl).
    do 2 eexists; split; [reflexivity|]. right. split; [reflexivity|].
    eexists; split; [reflexivity | discriminate].
  - rewrite (verify_not_ok _ _ _ _ Ho eq_refl).
    do 2 eexists; split; [reflexivity|]. right. split; [reflexivity|].
    eexists; split; [reflexivity | discriminate].
Qed.

(** ** Verifying twice *)

(** C8: two calls in a row with the same proof token, the ledger
    reporting the same successful call to the configured contract both
    times, answer [valid: true] both times, with the same result; the
    only trace of a call is its own ledger request. *)
Theorem verifyPayment_twice :
  forall env txid log tx,
    found (net env (List.length log) (txUrl txid)) tx ->
    found (net env (S (List.length log)) (txUrl txid)) tx ->
    paysContract tx ->
    verifyTwice env txid log =
    (inr (mkVerify true None (Some (senderAddress tx)),
          mkVerify true None (Some (senderAddress tx))),
     (log ++ [txUrl txid; txUrl txid])%list).
Proof.
  intros env txid log tx H1 H2 Hp. unfold verifyTwice, bind.
  rewrite (verify_found env txid log tx H1).
  assert (H2' : found (ledgerOutcome env (log ++ [txUrl txid])%list txid) tx).
  { unfold ledgerOutcome. rewrite length_app, Nat.add_1_r. exact H2. }
  rewrite (verify_found env txid _ tx H2'), (judge_pays _ Hp).
  unfold ret. now rewrite <- app_assoc.
Qed.

Lemma verifyPayment_twice_witness :
  verifyTwice (worldWith (answering paidTx)) "abc123" [] =
  (inr (mkVerify true None (Some (senderAddress paidTx)),
        mkVerify true None (Some (senderAddress paidTx))),
   ([] ++ [txUrl "abc123"; txUrl "abc123"])%list).
Proof.
  apply (verifyPayment_twice (worldWith (answering paidTx)) "abc123" [] paidTx).
  - split; [exists (mkResponse true (inr paidTx)); repeat split | reflexivity].
  - split; [exists (mkResponse true (inr paidTx)); repeat split | reflexivity].
  - repeat split.
Defined.

(** ** The token type *)

Lemma allChars_complete (c : ascii) : In c allChars.
Proof.
  unfold allChars. rewrite <- (ascii_nat_embedding c).
  apply in_map, in_seq. pose proof (nat_ascii_bounded c). lia.
Qed.

Lemma upper_lower_char (x y : ascii) :
  Ascii.eqb (upperChar x) (upperChar y) = Ascii.eqb (lowerChar x) (lowerChar y).
Proof.
  assert (H : forallb (fun x => forallb (fun y =>
                Bool.eqb (Ascii.eqb (upperChar x) (upperChar y))
                         (Ascii.eqb (lowerChar x) (lowerChar y))) allChars)
                allChars = true) by (vm_compute; reflexivity).
  rewrite forallb_forall in H. specialize (H x (allChars_complete x)).
  rewrite forallb_forall in H. specialize (H y (allChars_complete y)).
  now apply Bool.eqb_prop in H.
Qed.

Lemma upper_lower_letter (c l : ascii) :
  Ascii.eqb (upperChar c) (upperChar l) = Ascii.eqb (lowerChar c) (lowerChar l).
Proof. apply upper_lower_char. Qed.

(** Upper-casing gives the upper-case word exactly when folding gives
    the lower-case one, letter after letter of the ticker. *)
Ltac letter_case c :=
  match goal with
  | |- context [Ascii.eqb (upperChar c) ?u] =>
      first
        [ replace (Ascii.eqb (upperChar c) u) with (Ascii.eqb (lowerChar c) "s")
            by exact (eq_sym (upper_lower_letter c "s"))
        | replace (Ascii.eqb (upperChar c) u) with (Ascii.eqb (lowerChar c) "b")
            by exact (eq_sym (upper_lower_letter c "b"))
        | replace (Ascii.eqb (upperChar c) u) with (Ascii.eqb (lowerChar c) "t")
            by exact (eq_sym (upper_lower_letter c "t"))
        | replace (Ascii.eqb (upperChar c) u) with (Ascii.eqb (lowerChar c) "c")
            by exact (eq_sym (upper_lower_letter c "c")) ]
  end.

Ltac glyph_step IH :=
  let g := fresh "g" in
  let gs := fresh "gs" in
  let c := fresh "c" in
  let l := fresh "l" in
  intros [|g gs]; [reflexivity|];
  cbn [fold_right];
  destruct g as [c| | | | | |l];
  [ cbn [upperGlyph foldGlyph append String.eqb];
    rewrite IH; letter_case c; reflexivity
  | .. ];
  try destruct l; cbn; first [reflexivity | apply IH].

Lemma ticker_end (gs : list Glyph) :
  String.eqb (fold_right (fun g acc => upperGlyph g ++ acc) "" gs) "" =
  String.eqb (fold_right (fun g acc => foldGlyph g ++ acc) "" gs) "".
Proof.
  destruct gs as [|g gs]; [reflexivity|]. cbn [fold_right].
  destruct g as [c| | | | | |l]; try destruct l; reflexivity.
Qed.

Lemma ticker_c :
  forall gs,
    String.eqb (fold_right (fun g acc => upperGlyph g ++ acc) "" gs) "C" =
    String.eqb (fold_right (fun g acc => foldGlyph g ++ acc) "" gs) "c".
Proof. glyph_step ticker_end. Qed.

Lemma ticker_tc :
  forall gs,
    String.eqb (fold_right (fun g acc => upperGlyph g ++ acc) "" gs) "TC" =
    String.eqb (fold_right (fun g acc => foldGlyph g ++ acc) "" gs) "tc".
Proof. glyph_step ticker_c. Qed.

Lemma ticker_btc :
  forall gs,
    String.eqb (fold_right (fun g acc => upperGlyph g ++ acc) "" gs) "BTC" =
    String.eqb (fold_right (fun g acc => foldGlyph g ++ acc) "" gs) "btc".
Proof. glyph_step ticker_tc. Qed.

Lemma ticker_sbtc :
  forall gs,
    String.eqb (fold_right (fun g acc => upperGlyph g ++ acc) "" gs) "SBTC" =
    String.eqb (fold_right (fun g acc => foldGlyph g ++ acc) "" gs) "sbtc".
Proof. glyph_step ticker_btc. Qed.

Lemma upper_is_pegged (s : string) :
  String.eqb (toUpperCase s) "SBTC" = eqNoCase s peggedTicker.
Proof. exact (ticker_sbtc (glyphs s)). Qed.

Lemma getPaymentTokenType_unfold (c : Context) :
  getPaymentTokenType c =
  tokenTypeOf
    (Some (orDefault (orElse (req_header c "X-PAYMENT-TOKEN-TYPE")
                             (req_query c "tokenType")) "STX")).
Proof.
  unfold getPaymentTokenType, tokenTypeOf. now rewrite upper_is_pegged.
Qed.

Lemma truthy_false_tokenTypeOf (v : option string) :
  truthy v = false -> tokenTypeOf v = STX.
Proof.
  destruct v as [s|]; simpl; [|reflexivity].
  intros H. apply negb_false_iff, String.eqb_eq in H. now subst.
Qed.

Lemma tokenType_by_hints :
  forall c,
    getPaymentTokenType c =
    selectTokenType (nonEmpty (req_header c "X-PAYMENT-TOKEN-TYPE"))
                    (req_query c "tokenType").
Proof.
  intros c. rewrite getPaymentTokenType_unfold.
  unfold selectTokenType, nonEmpty, orElse.
  destruct (truthy (req_header c "X-PAYMENT-TOKEN-TYPE")) eqn:Hh.
  - destruct (req_header c "X-PAYMENT-TOKEN-TYPE") as [h|]; [|discriminate].
    unfold orDefault. now rewrite Hh.
  - destruct (truthy (req_query c "tokenType")) eqn:Hq.
    + destruct (req_query c "tokenType") as [q|]; [|discriminate].
      unfold orDefault. now rewrite Hq.
    + rewrite (truthy_false_tokenTypeOf _ Hq).
      destruct (req_query c "tokenType") as [q|]; unfold orDefault;
        [rewrite Hq|]; reflexivity.
Qed.

(** C4, as the code has it: [getPaymentTokenType] is a total function of
    the two hints; a non-empty header decides alone, an empty header
    counts as absent, and a hint yields sBTC exactly when it equals
    "sBTC" up to case, STX otherwise (also when both are absent). *)
Theorem getPaymentTokenType_rule :
  forall c,
    getPaymentTokenType c =
    selectTokenType (nonEmpty (req_header c "X-PAYMENT-TOKEN-TYPE"))
                    (req_query c "tokenType").
Proof. exact tokenType_by_hints. Qed.

(** C4 as stated fails: with an empty header and the query parameter
    "sbtc", the header does not take precedence. *)
Lemma header_precedence_fails :
  ~ (forall c,
       getPaymentTokenType c =
       selectTokenType (req_header c "X-PAYMENT-TOKEN-TYPE")
                       (req_query c "tokenType")).
Proof.
  intros H. specialize (H (request (Some "") (Some "sbtc") None)).
  vm_compute in H. discriminate.
Qed.

(** C10: an empty token-type header falls back to the query parameter,
    and from there to the default STX. *)
Theorem empty_header_falls_back :
  forall c,
    req_header c "X-PAYMENT-TOKEN-TYPE" = Some "" ->
    getPaymentTokenType c = selectTokenType None (req_query c "tokenType").
Proof.
  intros c H. rewrite tokenType_by_hints, H. reflexivity.
Qed.

Lemma empty_header_falls_back_witness :
  getPaymentTokenType (request (Some "") (Some "sbtc") None) = sBTC.
Proof.
  exact (empty_header_falls_back (request (Some "") (Some "sbtc") None) eq_refl).
Defined.

(** ** Calendar dates *)

Lemma allFrom_spec (n : nat) (P : Z -> bool) :
  forall z, allFrom n z P = true ->
            forall i, z <= i < z + Z.of_nat n -> P i = true.
Proof.
  induction n as [|n IH]; intros z H i Hi; [lia|].
  simpl in H. apply andb_true_iff in H as [Hz Hrest].
  destruct (Z.eq_dec i z) as [->|Hne]; [assumption|].
  apply (IH (z + 1) Hrest). lia.
Qed.

Lemma civilChecks_era : forall doe, 0 <= doe < 146097 -> civilChecks doe = true.
Proof.
  intros doe H. apply (allFrom_spec (Z.to_nat 146097) civilChecks 0).
  - vm_compute. reflexivity.
  - rewrite Z2Nat.id by lia. lia.
Qed.

Lemma isLeapYear_period (y e : Z) : isLeapYear (y + 400 * e) = isLeapYear y.
Proof.
  unfold isLeapYear.
  replace (y + 400 * e) with (y + (100 * e) * 4) at 1 by lia.
  replace (y + 400 * e) with (y + (4 * e) * 100) at 1 by lia.
  replace (y + 400 * e) with (y + e * 400) by lia.
  now rewrite !Z_mod_plus_full.
Qed.

Lemma dayFromYear_period (y e : Z) :
  dayFromYear (y + 400 * e) = dayFromYear y + 146097 * e.
Proof.
  unfold dayFromYear.
  replace (y + 400 * e - 1969) with (y - 1969 + (100 * e) * 4) by lia.
  replace (y + 400 * e - 1901) with (y - 1901 + (4 * e) * 100) by lia.
  replace (y + 400 * e - 1601) with (y - 1601 + e * 400) by lia.
  rewrite !Z.div_add by lia. lia.
Qed.

Lemma daysInMonth_period (y e m : Z) :
  daysInMonth (y + 400 * e) m = daysInMonth y m.
Proof. unfold daysInMonth. now rewrite isLeapYear_period. Qed.

Lemma makeDay_period (y e m d : Z) :
  makeDay (y + 400 * e) m d = makeDay y m d + 146097 * e.
Proof.
  unfold makeDay, daysBeforeMonth, leapDay.
  rewrite isLeapYear_period, dayFromYear_period. lia.
Qed.

(** The date of a day is the date of its day of era, moved by whole eras. *)
Lemma civilFromDays_era (doe e : Z) :
  0 <= doe < 146097 ->
  civilFromDays (doe + 146097 * e - 719468) =
  let '(y, m, d) := civilFromDays (doe - 719468) in (y + 400 * e, m, d).
Proof.
  intros H. unfold civilFromDays. cbv zeta.
  replace (doe + 146097 * e - 719468 + 719468) with (doe + e * 146097) by lia.
  replace (doe - 719468 + 719468) with doe by lia.
  rewrite Z.div_add by lia. rewrite (Z.div_small doe 146097) by lia.
  replace (doe + e * 146097 - (0 + e) * 146097) with doe by lia.
  replace (doe - 0 * 146097) with doe by lia.
  match goal with
  | |- context [if ?b then _ else _] => destruct b
  end; f_equal; f_equal; lia.
Qed.

Lemma civilFromDays_correct (day : Z) :
  let '(y, m, d) := civilFromDays day in
  1 <= m <= 12 /\ 1 <= d <= daysInMonth y m /\ makeDay y m d = day /\
  400 * ((day + 719468) / 146097) <= y <= 400 * ((day + 719468) / 146097) + 400.
Proof.
  pose proof (Z.mod_pos_bound (day + 719468) 146097 ltac:(lia)) as Hdoe.
  pose proof (Z.div_mod (day + 719468) 146097 ltac:(lia)) as Hdm.
  set (e := (day + 719468) / 146097) in *.
  set (doe := (day + 719468) mod 146097) in *.
  assert (Hday : day = doe + 146097 * e - 719468) by lia.
  pose proof (civilFromDays_era doe e Hdoe) as Hera.
  rewrite <- Hday in Hera. rewrite Hera. clear Hera.
  pose proof (civilChecks_era doe Hdoe) as Hc. unfold civilChecks in Hc.
  cbv zeta in Hc.
  destruct (civilFromDays (doe - 719468)) as [[y m] d].
  repeat (apply andb_true_iff in Hc as [Hc ?]).
  rewrite daysInMonth_period, makeDay_period.
  repeat match goal with
         | H : (_ <=? _) = true |- _ => apply Z.leb_le in H
         | H : (_ =? _) = true |- _ => apply Z.eqb_eq in H
         end.
  lia.
Qed.

(** ** Reading back what [toISOString] writes *)

Lemma digitValue_digit (n : Z) : digitValue (digit n) = Some (n mod 10).
Proof.
  pose proof (Z.mod_pos_bound n 10 ltac:(lia)) as H. unfold digit.
  assert (Hk : exists k, (k < 10)%nat /\ n mod 10 = Z.of_nat k).
  { exists (Z.to_nat (n mod 10)). split; lia. }
  destruct Hk as (k & Hk & ->). rewrite Nat2Z.id.
  do 10 (destruct k as [|k]; [reflexivity|]). lia.
Qed.

Lemma digit_not_sign (n : Z) (c : ascii) :
  digitValue c = None -> Ascii.eqb (digit n) c = false.
Proof.
  intros H. apply Ascii.eqb_neq. intros <-.
  rewrite digitValue_digit in H. discriminate.
Qed.

Lemma readDigits_pad (w : nat) :
  forall n acc rest,
    readDigits w acc (pad w n ++ rest) = Some (acc * 10 ^ Z.of_nat w + n mod 10 ^ Z.of_nat w, rest).
Proof.
  induction w as [|w IH]; intros n acc rest.
  - simpl. rewrite Z.mod_1_r. f_equal. f_equal. lia.
  - cbn [pad readDigits append]. rewrite digitValue_digit, IH.
    f_equal. f_equal.
    rewrite Nat2Z.inj_succ, Z.pow_succ_r by lia.
    rewrite (Z.mul_comm 10), Z.rem_mul_r by lia. lia.
Qed.

Lemma readDigits_pad_small (w : nat) (n : Z) (rest : string) :
  0 <= n < 10 ^ Z.of_nat w ->
  readDigits w 0 (pad w n ++ rest) = Some (n, rest).
Proof.
  intros H. rewrite readDigits_pad, Z.mod_small by assumption.
  f_equal.
Qed.

Lemma expect_lit (c : ascii) (rest : string) :
  expect c (String c EmptyString ++ rest) = Some rest.
Proof. simpl. now rewrite Ascii.eqb_refl. Qed.

Lemma readYear_isoYear (y : Z) (rest : string) :
  -999999 <= y <= 999999 ->
  readYear (isoYear y ++ rest) = Some (y, rest).
Proof.
  intros H. unfold isoYear.
  destruct ((0 <=? y) && (y <=? 9999)) eqn:E.
  - apply andb_true_iff in E as [E1 E2]. apply Z.leb_le in E1, E2.
    rewrite <- (readDigits_pad_small 4 y rest) by (simpl; lia).
    cbn [pad append readYear].
    now rewrite !digit_not_sign by reflexivity.
  - destruct (y <? 0) eqn:E'.
    + apply Z.ltb_lt in E'.
      cbn [append readYear]. cbn [Ascii.eqb Bool.eqb].
      rewrite readDigits_pad_small by (simpl; lia). f_equal. f_equal. lia.
    + cbn [append readYear]. cbn [Ascii.eqb Bool.eqb].
      apply Z.ltb_ge in E'.
      rewrite readDigits_pad_small by (simpl; lia). reflexivity.
Qed.

Lemma instantOfISO_fields (y m d h mi sec ms : Z) :
  -999999 <= y <= 999999 ->
  1 <= m <= 12 -> 1 <= d <= daysInMonth y m ->
  0 <= h < 24 -> 0 <= mi < 60 -> 0 <= sec < 60 -> 0 <= ms < 1000 ->
  instantOfISO
    (isoYear y ++ "-" ++ pad 2 m ++ "-" ++ pad 2 d ++ "T"
     ++ pad 2 h ++ ":" ++ pad 2 mi ++ ":" ++ pad 2 sec ++ "." ++ pad 3 ms ++ "Z")
  = Some (makeDay y m d * msPerDay + h * 3600000 + mi * 60000 + sec * 1000 + ms).
Proof.
  intros Hy Hm Hd Hh Hmi Hs Hms.
  assert (Hd' : d <= 31).
  { unfold daysInMonth in Hd.
    repeat match type of Hd with
           | context [if ?b then _ else _] => destruct b
           end; lia. }
  unfold instantOfISO.
  rewrite readYear_isoYear by assumption. cbn [andThen].
  repeat first
    [ rewrite expect_lit; cbn [andThen]
    | rewrite readDigits_pad_small by (simpl; lia); cbn [andThen] ].
  rewrite String.eqb_refl.
  repeat match goal with
         | |- context [?a <=? ?b] =>
             replace (a <=? b) with true by (symmetry; apply Z.leb_le; lia)
         | |- context [?a <? ?b] =>
             replace (a <? b) with true by (symmetry; apply Z.ltb_lt; lia)
         end.
  reflexivity.
Qed.

(** The timestamp [toISOString] writes for a valid time value denotes
    that time value. *)
Lemma toISOString_denotes (t : Z) :
  Z.abs t <= maxTime ->
  exists s, toISOString t = inr s /\ instantOfISO s = Some t.
Proof.
  intros Ht. unfold toISOString.
  destruct (Z.abs t >? maxTime) eqn:E.
  { apply Z.gtb_lt in E. lia. }
  pose proof (civilFromDays_correct (t / msPerDay)) as Hc.
  destruct (civilFromDays (t / msPerDay)) as [[y m] d].
  destruct Hc as (Hm & Hd & Hday & Hy).
  eexists; split; [reflexivity|].
  unfold maxTime, msPerDay in *.
  rewrite instantOfISO_fields; try assumption.
  - f_equal. rewrite Hday. unfold msPerDay.
    Z.div_mod_to_equations. lia.
  - Z.div_mod_to_equations. lia.
  - Z.div_mod_to_equations. lia.
  - Z.div_mod_to_equations. lia.
  - Z.div_mod_to_equations. lia.
  - Z.div_mod_to_equations. lia.
Qed.

(** ** The challenge *)

Lemma expiry_of_clock (env : Env) :
  clockInRange env ->
  exists stamp,
    toISOString (Date_now env + 10 * 60 * 1000) = inr stamp /\
    instantOfISO stamp = Some (Date_now env + 600 * 1000).
Proof. intros H. apply toISOString_denotes. exact H. Qed.

Lemma paymentRequired_sbtc {Data} env c resource price sats :
  clockInRange env -> getPaymentTokenType c = sBTC -> sats <> 0 ->
  exists stamp,
    toISOString (Date_now env + 10 * 60 * 1000) = inr stamp /\
    instantOfISO stamp = Some (Date_now env + 600 * 1000) /\
    @paymentRequired Data env c resource price (Some sats) =
    inr (mkHttp
           (SbtcBody
              (mkSbtcChallenge
                 (mkBase "Payment Required" "PAYMENT_REQUIRED" resource
                    (randomUUID env) stamp "mainnet" whyStacks)
                 (numberToString sats) CONTRACT.recipient "sBTC" SBTC sbtcSteps))
           402).
Proof.
  intros Hclock Htok Hs.
  destruct (expiry_of_clock env Hclock) as (stamp & Hiso & Hden).
  exists stamp. repeat split; try assumption.
  unfold paymentRequired. rewrite Hiso, Htok. cbn [truthyNum].
  apply Z.eqb_neq in Hs. now rewrite Hs.
Qed.

Lemma paymentRequired_stx {Data} env c resource price sbtcPrice :
  clockInRange env ->
  getPaymentTokenType c = STX \/ truthyNum sbtcPrice = false ->
  exists stamp,
    toISOString (Date_now env + 10 * 60 * 1000) = inr stamp /\
    instantOfISO stamp = Some (Date_now env + 600 * 1000) /\
    @paymentRequired Data env c resource price sbtcPrice =
    inr (mkHttp
           (StxBody
              (mkStxChallenge
                 (mkBase "Payment Required" "PAYMENT_REQUIRED" resource
                    (randomUUID env) stamp "mainnet" whyStacks)
                 (mkPayment expectedContract "call-with-stx" price "STX"
                    CONTRACT.recipient)
                 (mkOptions
                    (mkStxOption price "contract-call")
                    (mkSbtcOption (orNum sbtcPrice (ceilDiv price 1000))
                       "direct-transfer" SBTC))
                 stxSteps))
           402).
Proof.
  intros Hclock Hcase.
  destruct (expiry_of_clock env Hclock) as (stamp & Hiso & Hden).
  exists stamp. repeat split; try assumption.
  unfold paymentRequired. rewrite Hiso.
  destruct Hcase as [-> | Hfalsy]; [reflexivity|].
  destruct (getPaymentTokenType c); [reflexivity|].
  destruct sbtcPrice as [sats|]; [|reflexivity]. now rewrite Hfalsy.
Qed.

(** Without that room [toISOString] throws and no challenge is produced. *)
Lemma paymentRequired_needs_clock {Data} env c resource price sbtcPrice resp :
  @paymentRequired Data env c resource price sbtcPrice = inr resp ->
  clockInRange env.
Proof.
  unfold paymentRequired, toISOString, clockInRange.
  change (10 * 60 * 1000) with 600000.
  destruct (Z.abs (Date_now env + 600000) >? maxTime) eqn:E; [discriminate|].
  intros _. rewrite Z.gtb_ltb in E. apply Z.ltb_ge in E. exact E.
Qed.

Lemma ceilDiv_is_ceiling (a b : Z) :
  0 < b -> b * (ceilDiv a b - 1) < a <= b * ceilDiv a b.
Proof. intros Hb. unfold ceilDiv. Z.div_mod_to_equations. nia. Qed.

(** C5: when the resolved token type is sBTC and the sBTC price of the
    configuration was supplied, as every handler does, the challenge is
    a 402 denominated in sBTC: [tokenType] "sBTC", the supplied price as
    amount (2 on a standard route), the sBTC contract identifiers and
    three instructions. *)
Theorem paymentRequired_pegged :
  forall (Data : Type) env c resource price sats,
    clockInRange env ->
    getPaymentTokenType c = sBTC ->
    configuredSbtcPrice sats ->
    exists b,
      @paymentRequired Data env c resource price (Some sats) =
        inr (mkHttp (SbtcBody b) 402) /\
      tokenType b = "sBTC" /\
      maxAmountRequired b = numberToString sats /\
      (sats = CONTRACT.standardPriceSbtc -> maxAmountRequired b = "2") /\
      tokenContract b = SBTC /\
      List.length (sbtc_instructions b) = 3%nat.
Proof.
  intros Data env c resource price sats Hclock Htok Hconf.
  assert (Hs : sats <> 0) by (destruct Hconf as [-> | ->]; discriminate).
  destruct (@paymentRequired_sbtc Data env c resource price sats Hclock Htok Hs)
    as (stamp & _ & _ & ->).
  eexists; split; [reflexivity|]. repeat split.
  intros ->. reflexivity.
Qed.

Lemma paymentRequired_pegged_witness :
  exists b,
    @paymentRequired unit (worldWith notFound404)
      (request None (Some "sBTC") None) "/peg-health"
      CONTRACT.standardPrice (Some CONTRACT.standardPriceSbtc) =
      inr (mkHttp (SbtcBody b) 402) /\
    tokenType b = "sBTC" /\
    maxAmountRequired b = "2" /\
    (CONTRACT.standardPriceSbtc = CONTRACT.standardPriceSbtc ->
     maxAmountRequired b = "2") /\
    tokenContract b = SBTC /\
    List.length (sbtc_instructions b) = 3%nat.
Proof.
  apply (paymentRequired_pegged unit (worldWith notFound404)
           (request None (Some "sBTC") None) "/peg-health"
           CONTRACT.standardPrice CONTRACT.standardPriceSbtc).
  - unfold clockInRange, maxTime. simpl. lia.
  - reflexivity.
  - left. reflexivity.
Defined.

(** C6: every challenge [paymentRequired] produces, whatever the
    resource, the prices and the token type, is a 402 that carries the
    generated nonce and an [expiresAt] that is the timestamp of exactly
    the creation time plus 600 seconds. *)
Theorem paymentRequired_expiry :
  forall (Data : Type) env c resource price sbtcPrice,
    clockInRange env ->
    exists resp base,
      @paymentRequired Data env c resource price sbtcPrice = inr resp /\
      status resp = 402 /\
      challengeBase (body resp) = Some base /\
      nonce base = randomUUID env /\
      toISOString (Date_now env + 600 * 1000) = inr (expiresAt base) /\
      instantOfISO (expiresAt base) = Some (Date_now env + 600 * 1000).
Proof.
  intros Data env c resource price sbtcPrice Hclock.
  destruct (getPaymentTokenType c) eqn:Htok.
  - destruct (@paymentRequired_stx Data env c resource price sbtcPrice Hclock
                (or_introl Htok)) as (stamp & Hiso & Hden & ->).
    do 2 eexists. repeat split; [exact Hiso | exact Hden].
  - destruct (truthyNum sbtcPrice) eqn:Ht.
    + destruct sbtcPrice as [sats|]; [|discriminate].
      assert (Hs : sats <> 0).
      { simpl in Ht. apply negb_true_iff, Z.eqb_neq in Ht. exact Ht. }
      destruct (@paymentRequired_sbtc Data env c resource price sats Hclock
                  Htok Hs) as (stamp & Hiso & Hden & ->).
      do 2 eexists. repeat split; [exact Hiso | exact Hden].
    + destruct (@paymentRequired_stx Data env c resource price sbtcPrice Hclock
                  (or_intror Ht)) as (stamp & Hiso & Hden & ->).
      do 2 eexists. repeat split; [exact Hiso | exact Hden].
Qed.

Lemma paymentRequired_expiry_witness :
  exists resp base,
    @paymentRequired unit (worldWith notFound404)
      (request None None None) "/alpha"
      CONTRACT.premiumPrice (Some CONTRACT.premiumPriceSbtc) = inr resp /\
    status resp = 402 /\
    challengeBase (body resp) = Some base /\
    nonce base = randomUUID (worldWith notFound404) /\
    toISOString (Date_now (worldWith notFound404) + 600 * 1000) =
      inr (expiresAt base) /\
    instantOfISO (expiresAt base) =
      Some (Date_now (worldWith notFound404) + 600 * 1000).
Proof.
  apply (paymentRequired_expiry unit (worldWith notFound404)
           (request None None None) "/alpha"
           CONTRACT.premiumPrice (Some CONTRACT.premiumPriceSbtc)).
  unfold clockInRange, maxTime. simpl. lia.
Defined.

(** C7: a [GET /peg-health] request without [X-Payment] header whose
    token type resolves to STX is answered with a 402 whose body has
    [code] "PAYMENT_REQUIRED" and [payment.price] 2000, and the log of
    upstream requests is left as it was: nothing is fetched. *)
Theorem pegHealth_unpaid :
  forall (PegReport : Type) (gatherPegHealth : Env -> Async PegReport)
         env c log,
    clockInRange env ->
    req_header c "X-Payment" = None ->
    getPaymentTokenType c = STX ->
    exists b,
      pegHealthHandler PegReport gatherPegHealth env c log =
        (inr (mkHttp (StxBody b) 402), log) /\
      code (stx_base b) = "PAYMENT_REQUIRED" /\
      price (payment b) = 2000.
Proof.
  intros PegReport gather env c log Hclock Hhdr Htok.
  unfold pegHealthHandler. rewrite Hhdr.
  destruct (@paymentRequired_stx PegReport env c "/peg-health"
              CONTRACT.standardPrice (Some CONTRACT.standardPriceSbtc)
              Hclock (or_introl Htok)) as (stamp & _ & _ & ->).
  eexists; split; [reflexivity|]. split; reflexivity.
Qed.

Lemma pegHealth_unpaid_witness :
  exists b,
    pegHealthHandler unit (fun _ => ret tt) (worldWith (answering paidTx))
      (request None None None) [] =
      (inr (mkHttp (StxBody b) 402), []) /\
    code (stx_base b) = "PAYMENT_REQUIRED" /\
    price (payment b) = 2000.
Proof.
  apply (pegHealth_unpaid unit (fun _ => ret tt) (worldWith (answering paidTx))
           (request None None None) []).
  - unfold clockInRange, maxTime. simpl. lia.
  - reflexivity.
  - reflexivity.
Defined.

(** C9: when the token type resolves to STX the 402 body has a
    [paymentOptions] block with both denominations: the STX price, and
    as sBTC amount the sBTC price supplied (the handlers supply the one
    of the configuration) or, when none is supplied, the ceiling of
    price / 1000.  The price is a safe integer, on which
    [Math.ceil(price / 1000)] is that ceiling. *)
Theorem paymentRequired_options :
  forall (Data : Type) env c resource price sbtcPrice,
    clockInRange env ->
    getPaymentTokenType c = STX ->
    safeInteger price ->
    (sbtcPrice = None \/ exists sats, sbtcPrice = Some sats /\
                                      configuredSbtcPrice sats) ->
    exists b,
      @paymentRequired Data env c resource price sbtcPrice =
        inr (mkHttp (StxBody b) 402) /\
      stx_price (stx (paymentOptions b)) = price /\
      (forall sats, sbtcPrice = Some sats ->
                    sbtc_price (sbtc (paymentOptions b)) = sats) /\
      (sbtcPrice = None ->
       1000 * (sbtc_price (sbtc (paymentOptions b)) - 1) < price
         <= 1000 * sbtc_price (sbtc (paymentOptions b))).
Proof.
  intros Data env c resource price sbtcPrice Hclock Htok _ Hsupplied.
  destruct (@paymentRequired_stx Data env c resource price sbtcPrice Hclock
              (or_introl Htok)) as (stamp & _ & _ & ->).
  eexists; split; [reflexivity|]. cbn [paymentOptions stx sbtc stx_price sbtc_price].
  split; [reflexivity|]. split.
  - intros sats ->. destruct Hsupplied as [H | (s & H & [Hs | Hs])];
      [discriminate | |]; injection H as <-; subst; reflexivity.
  - intros ->. unfold orNum. apply ceilDiv_is_ceiling. lia.
Qed.

Lemma paymentRequired_options_witness :
  exists b,
    @paymentRequired unit (worldWith notFound404)
      (request None None None) "/peg-health"
      CONTRACT.standardPrice (Some CONTRACT.standardPriceSbtc) =
      inr (mkHttp (StxBody b) 402) /\
    stx_price (stx (paymentOptions b)) = 2000 /\
    (forall sats, Some CONTRACT.standardPriceSbtc = Some sats ->
                  sbtc_price (sbtc (paymentOptions b)) = sats) /\
    (Some CONTRACT.standardPriceSbtc = None ->
     1000 * (sbtc_price (sbtc (paymentOptions b)) - 1) < 2000
       <= 1000 * sbtc_price (sbtc (paymentOptions b))).
Proof.
  apply (paymentRequired_options unit (worldWith notFound404)
           (request None None None) "/peg-health"
           CONTRACT.standardPrice (Some CONTRACT.standardPriceSbtc)).
  - unfold clockInRange, maxTime. simpl. lia.
  - reflexivity.
  - unfold safeInteger. simpl. lia.
  - right. exists CONTRACT.standardPriceSbtc. split; [reflexivity | now left].
Defined.

(** * Further properties of the gate *)

(** ** The proof token *)

Lemma normalizeTxid_prefix (txid : string) :
  String.prefix "0x" (normalizeTxid txid) = true.
Proof.
  unfold normalizeTxid. destruct (String.prefix "0x" txid) eqn:E; [exact E|].
  cbn. now destruct txid.
Qed.

Lemma normalizeTxid_idempotent (txid : string) :
  normalizeTxid (normalizeTxid txid) = normalizeTxid txid.
Proof.
  unfold normalizeTxid at 1. now rewrite normalizeTxid_prefix.
Qed.

(** X1: the "0x" prefix of a proof token is optional: the token with the
    prefix added is verified through the same ledger request, with the
    same verdict, as the token itself, and the requested id always
    carries the prefix. *)
Theorem verifyPayment_prefix_optional :
  forall env txid log,
    verifyPayment env (normalizeTxid txid) log = verifyPayment env txid log /\
    String.prefix "0x" (normalizeTxid txid) = true.
Proof.
  intros env txid log. split; [|apply normalizeTxid_prefix].
  unfold verifyPayment, txUrl. now rewrite normalizeTxid_idempotent.
Qed.

Lemma verifyPayment_log env txid log :
  snd (verifyPayment env txid log) = (log ++ [txUrl txid])%list.
Proof.
  destruct (ledgerOutcome env log txid) as [e | [[] [e | tx]]] eqn:Ho.
  - now rewrite (verify_rejected _ _ _ _ Ho).
  - now rewrite (verify_unparsed _ _ _ _ e Ho eq_refl eq_refl).
  - assert (Hl : lookedUp (ledgerOutcome env log txid) tx).
    { rewrite Ho. eexists; repeat split. }
    destruct (nullish tx) eqn:Hn.
    + now destruct (verify_nullish _ _ _ _ Hl Hn) as (e & ->).
    + now rewrite (verify_found _ _ _ tx (conj Hl Hn)).
  - now rewrite (verify_not_ok _ _ _ _ Ho eq_refl).
  - now rewrite (verify_not_ok _ _ _ _ Ho eq_refl).
Qed.

(** X2: whatever the ledger answers, one verification issues exactly one
    upstream request, the lookup of the transaction. *)
Theorem verifyPayment_one_request :
  forall env txid log,
    snd (verifyPayment env txid log) = (log ++ [txUrl txid])%list.
Proof. exact verifyPayment_log. Qed.

(** X3: the verdict looks at four fields only.  Two transactions that
    agree on status, type, call target and sender get the same verdict,
    whatever else they contain: the amount paid, the function called and
    its arguments are never checked. *)
Theorem verifyPayment_four_fields :
  forall env txid log tx env' txid' log' tx',
    found (ledgerOutcome env log txid) tx ->
    found (ledgerOutcome env' log' txid') tx' ->
    txStatus tx = txStatus tx' ->
    txType tx = txType tx' ->
    callTarget tx = callTarget tx' ->
    senderAddress tx = senderAddress tx' ->
    verdict env txid log = verdict env' txid' log'.
Proof.
  intros env txid log tx env' txid' log' tx' Hf Hf' Hs Ht Hc Ha.
  unfold verdict. rewrite (verify_found _ _ _ _ Hf), (verify_found _ _ _ _ Hf').
  unfold judge. now rewrite Hs, Ht, Hc, Ha.
Qed.

Lemma found_answering (env : Env) (log : Log) (txid : string) (tx : JsValue) :
  ledgerOutcome env log txid = answering tx -> nullish tx = false ->
  found (ledgerOutcome env log txid) tx.
Proof.
  intros Ho Hn. split; [|exact Hn]. rewrite Ho.
  exists (mkResponse true (inr tx)). repeat split.
Qed.

Lemma verifyPayment_four_fields_witness :
  verdict (worldWith (answering paidTx)) "abc123" [] =
  verdict (worldWith (answering emptyCallTx)) "0xffff" ["https://example.org"].
Proof.
  apply (verifyPayment_four_fields
           (worldWith (answering paidTx)) "abc123" [] paidTx
           (worldWith (answering emptyCallTx)) "0xffff" ["https://example.org"]
           emptyCallTx).
  - apply found_answering; reflexivity.
  - apply found_answering; reflexivity.
  - reflexivity.
  - reflexivity.
  - reflexivity.
  - reflexivity.
Defined.

(** ** Challenge and verification together *)

Lemma paymentRequired_sbtc_contract {Data} env c resource price sbtcPrice b st :
  @paymentRequired Data env c resource price sbtcPrice = inr (mkHttp (SbtcBody b) st) ->
  tokenContract b = SBTC.
Proof.
  unfold paymentRequired.
  destruct (toISOString _); [discriminate|].
  destruct (getPaymentTokenType c); [discriminate|].
  destruct sbtcPrice as [sats|]; [|discriminate].
  destruct (truthyNum (Some sats)); [|discriminate].
  intros H. injection H as <- _. reflexivity.
Qed.

Lemma paymentRequired_stx_contract {Data} env c resource price sbtcPrice b st :
  @paymentRequired Data env c resource price sbtcPrice = inr (mkHttp (StxBody b) st) ->
  contract (payment b) = expectedContract.
Proof.
  unfold paymentRequired.
  destruct (toISOString _); [discriminate|].
  destruct (getPaymentTokenType c).
  - intros H. injection H as <- _. reflexivity.
  - destruct sbtcPrice as [sats|].
    + destruct (truthyNum (Some sats)); [discriminate|].
      intros H. injection H as <- _. reflexivity.
    + intros H. injection H as <- _. reflexivity.
Qed.

(** X4: a payment made the way the sBTC challenge describes is never
    accepted.  Whatever transaction calls the token contract the sBTC
    challenge names, [verifyPayment] answers [valid: false]: it accepts
    calls to the STX payment contract only. *)
Theorem sbtc_payment_rejected :
  forall (Data : Type) env c resource price sbtcPrice b st env' txid log tx,
    @paymentRequired Data env c resource price sbtcPrice =
      inr (mkHttp (SbtcBody b) st) ->
    lookedUp (ledgerOutcome env' log txid) tx ->
    callTarget tx = JStr (token (tokenContract b)) ->
    exists reason,
      verdict env' txid log = inr (mkVerify false (Some reason) None).
Proof.
  intros Data env c resource price sbtcPrice b st env' txid log tx Hb Hl Hc.
  rewrite (paymentRequired_sbtc_contract _ _ _ _ _ _ _ Hb) in Hc.
  unfold verdict. destruct (nullish tx) eqn:Hn.
  - destruct (verify_nullish _ _ _ _ Hl Hn) as (e & ->). eexists; reflexivity.
  - rewrite (verify_found _ _ _ tx (conj Hl Hn)). unfold judge.
    destruct (strictNeqStr (txStatus tx) "success");
      [destruct (toString (txStatus tx)); eexists; reflexivity|].
    destruct (strictNeqStr (txType tx) "contract_call"); [eexists; reflexivity|].
    rewrite Hc. eexists; reflexivity.
Qed.

Lemma sbtc_payment_rejected_witness :
  exists reason,
    verdict (worldWith (answering sbtcTransferTx)) "abc123" [] =
    inr (mkVerify false (Some reason) None).
Proof.
  apply (sbtc_payment_rejected unit sampleWorld
           (request None (Some "sBTC") None) "/peg-health"
           CONTRACT.standardPrice (Some CONTRACT.standardPriceSbtc)
           sampleSbtcChallenge 402
           (worldWith (answering sbtcTransferTx)) "abc123" [] sbtcTransferTx).
  - reflexivity.
  - exists (mkResponse true (inr sbtcTransferTx)). repeat split.
  - reflexivity.
Defined.

(** X5: the STX challenge and the verification agree on the contract.  A
    successful contract call to the contract a STX challenge names in
    [payment.contract] is accepted, with the sender as payer, whatever
    function it calls and whatever it pays. *)
Theorem stx_payment_accepted :
  forall (Data : Type) env c resource price sbtcPrice b st env' txid log tx,
    @paymentRequired Data env c resource price sbtcPrice =
      inr (mkHttp (StxBody b) st) ->
    found (ledgerOutcome env' log txid) tx ->
    txStatus tx = JStr "success" ->
    txType tx = JStr "contract_call" ->
    callTarget tx = JStr (contract (payment b)) ->
    verdict env' txid log = inr (mkVerify true None (Some (senderAddress tx))).
Proof.
  intros Data env c resource price sbtcPrice b st env' txid log tx Hb Hf Hs Ht Hc.
  rewrite (paymentRequired_stx_contract _ _ _ _ _ _ _ Hb) in Hc.
  unfold verdict. rewrite (verify_found _ _ _ _ Hf).
  now rewrite (judge_pays tx (conj Hs (conj Ht Hc))).
Qed.

Lemma stx_payment_accepted_witness :
  verdict sampleWorld "abc123" [] =
  inr (mkVerify true None (Some (senderAddress paidTx))).
Proof.
  apply (stx_payment_accepted unit sampleWorld
           (request None None None) "/peg-health"
           CONTRACT.standardPrice (Some CONTRACT.standardPriceSbtc)
           sampleStxChallenge 402 sampleWorld "abc123" [] paidTx).
  - reflexivity.
  - apply found_answering; reflexivity.
  - reflexivity.
  - reflexivity.
  - reflexivity.
Defined.

(** X6: which challenge is sent.  The challenge is the sBTC one exactly
    when the token type resolves to sBTC and a price other than 0 was
    supplied; asking for sBTC without such a price gets the STX
    challenge. *)
Theorem paymentRequired_denomination :
  forall (Data : Type) env c resource price sbtcPrice,
    clockInRange env ->
    exists resp,
      @paymentRequired Data env c resource price sbtcPrice = inr resp /\
      status resp = 402 /\
      ((exists b, body resp = SbtcBody b) <->
       getPaymentTokenType c = sBTC /\ truthyNum sbtcPrice = true) /\
      ((exists b, body resp = StxBody b) <->
       getPaymentTokenType c = STX \/ truthyNum sbtcPrice = false).
Proof.
  intros Data env c resource price sbtcPrice Hclock.
  destruct (getPaymentTokenType c) eqn:Htok.
  - destruct (@paymentRequired_stx Data env c resource price sbtcPrice Hclock
                (or_introl Htok)) as (stamp & _ & _ & ->).
    eexists; split; [reflexivity|]. split; [reflexivity|]. cbn [body]. split.
    + split; [intros (b & Hb); discriminate | intros (H & _); discriminate].
    + split; [now left | intros _; eexists; reflexivity].
  - destruct (truthyNum sbtcPrice) eqn:Ht.
    + destruct sbtcPrice as [sats|]; [|discriminate].
      assert (Hs : sats <> 0).
      { simpl in Ht. apply negb_true_iff, Z.eqb_neq in Ht. exact Ht. }
      destruct (@paymentRequired_sbtc Data env c resource price sats Hclock
                  Htok Hs) as (stamp & _ & _ & ->).
      eexists; split; [reflexivity|]. split; [reflexivity|]. cbn [body]. split.
      * split; [intros _; now split | intros _; eexists; reflexivity].
      * split; [intros (b & Hb); discriminate | intros [H | H]; discriminate].
    + destruct (@paymentRequired_stx Data env c resource price sbtcPrice Hclock
                  (or_intror Ht)) as (stamp & _ & _ & ->).
      eexists; split; [reflexivity|]. split; [reflexivity|]. cbn [body]. split.
      * split; [intros (b & Hb); discriminate | intros (_ & H); discriminate].
      * split; [now right | intros _; eexists; reflexivity].
Qed.

Lemma paymentRequired_denomination_witness :
  exists resp,
    @paymentRequired unit sampleWorld (request (Some "sbtc") None None)
      "/alpha" 5000 None = inr resp /\
    status resp = 402 /\
    ((exists b, body resp = SbtcBody b) <->
     getPaymentTokenType (request (Some "sbtc") None None) = sBTC /\
     truthyNum None = true) /\
    ((exists b, body resp = StxBody b) <->
     getPaymentTokenType (request (Some "sbtc") None None) = STX \/
     truthyNum None = false).
Proof.
  apply (paymentRequired_denomination unit sampleWorld
           (request (Some "sbtc") None None) "/alpha" 5000 None).
  unfold clockInRange, maxTime. simpl. lia.
Defined.

(** ** The price of BTC *)

Lemma fetchBtcPrice_run (env : Env) (log : Log) :
  fetchBtcPrice env log =
  (inr (btcPriceOf (net env (List.length log) COINGECKO_PRICE)),
   (log ++ [COINGECKO_PRICE])%list).
Proof.
  unfold fetchBtcPrice, btcPriceOf, quotedUsd, jsonOrNull, try_catch, bind,
    fetch, lift, ret, throw.
  destruct (net env (List.length log) COINGECKO_PRICE) as [e | [okay [e | data]]];
    try reflexivity.
  cbn [json]. rewrite !getPropOpt_field. reflexivity.
Qed.

Lemma btcPriceOf_truthy (o : FetchOutcome) : truthyValue (btcPriceOf o) = true.
Proof.
  unfold btcPriceOf. destruct (truthyValue (quotedUsd o)) eqn:E; [exact E|].
  reflexivity.
Qed.

(** X7: [fetchBtcPrice] never throws and issues one request.  It returns
    the value found under [bitcoin.usd] of the answer when that value is
    truthy, whether or not the answer has an ok status, and 97000 in
    every other case: network failure, a body that is not JSON, a missing
    or falsy price. *)
Theorem fetchBtcPrice_answer :
  forall env log,
    let o := net env (List.length log) COINGECKO_PRICE in
    fetchBtcPrice env log =
    (inr (if truthyValue (quotedUsd o) then quotedUsd o else JNum "97000"),
     (log ++ [COINGECKO_PRICE])%list).
Proof. intros env log. apply fetchBtcPrice_run. Qed.

(** X8: the price [fetchBtcPrice] returns is never falsy: not 0, not
    NaN, not [null] or [undefined], not the empty string. *)
Theorem fetchBtcPrice_truthy :
  forall env log,
    exists p log',
      fetchBtcPrice env log = (inr p, log') /\ truthyValue p = true.
Proof.
  intros env log. rewrite fetchBtcPrice_run.
  do 2 eexists; split; [reflexivity | apply btcPriceOf_truthy].
Qed.

(** ** The sBTC metrics *)

Lemma fetchJsonOrNull_run (env : Env) (url : string) (log : Log) :
  fetchJsonOrNull env url log =
  (inr (jsonOrNull (net env (List.length log) url)), (log ++ [url])%list).
Proof.
  unfold fetchJsonOrNull, jsonOrNull, try_catch, bind, fetch, lift, ret, throw.
  destruct (net env (List.length log) url) as [e | [okay [e | v]]]; reflexivity.
Qed.

Lemma usable_cases (v : JsValue) :
  usable v = true ->
  truthyValue v = false \/ (truthyValue v = true /\ exists shown, toString v = inr shown).
Proof.
  unfold usable, converts. destruct (truthyValue v); [|now left].
  destruct (toString v) as [e | shown]; [discriminate|].
  intros _. right. split; [reflexivity | now exists shown].
Qed.

Ltac run_metrics :=
  unfold fetchSbtcMetrics, try_catch, bind;
  rewrite fetchJsonOrNull_run; rewrite fetchJsonOrNull_run;
  rewrite length_app, Nat.add_1_r; unfold lift, ret, throw;
  repeat (rewrite getPropOpt_field; cbv beta iota).

(** [fetchSbtcMetrics] when no conversion throws, answer by answer. *)
Lemma fetchSbtcMetrics_run (env : Env) (log : Log) :
  let supplyRes := jsonOrNull (net env (List.length log) supplyUrl) in
  let teneroRes := jsonOrNull (net env (S (List.length log)) teneroUrl) in
  let total_supply := field supplyRes "total_supply" in
  let holders_count := field supplyRes "holders_count" in
  let price_usd := field (field teneroRes "data") "price_usd" in
  let volume_24h_usd := field (field teneroRes "data") "volume_24h_usd" in
  usable total_supply = true ->
  usable price_usd = true ->
  usable volume_24h_usd = true ->
  fetchSbtcMetrics env log =
  (inr (Metrics.mk
          (if truthyValue total_supply then ParseIntPer1e8 total_supply else zero)
          (if truthyValue holders_count then Given holders_count else zero)
          (if truthyValue price_usd then ParseFloat price_usd
           else Given (btcPriceOf
                         (net env (S (S (List.length log))) COINGECKO_PRICE)))
          (if truthyValue volume_24h_usd then ParseFloat volume_24h_usd else zero)),
   (log ++ [supplyUrl; teneroUrl]
        ++ (if truthyValue price_usd then [] else [COINGECKO_PRICE]))%list).
Proof.
  cbv zeta. intros Hs Hp Hv. run_metrics.
  apply usable_cases in Hs, Hp, Hv.
  unfold parseIntPer1e8, parseFloat.
  destruct Hs as [-> | (-> & s1 & ->)];
    destruct Hp as [-> | (-> & s2 & ->)];
    destruct Hv as [-> | (-> & s3 & ->)];
    repeat (rewrite getPropOpt_field; cbv beta iota);
    try rewrite fetchBtcPrice_run;
    repeat (rewrite getPropOpt_field; cbv beta iota);
    rewrite ?length_app, ?Nat.add_1_r, <- ?app_assoc;
    repeat match goal with
           | H : truthyValue ?v = _ |- context [truthyValue ?v] => rewrite H
           end;
    reflexivity.
Qed.

(** X9: [fetchSbtcMetrics] never throws.  It asks the ledger and the
    market service, in that order; whatever it asks after that, at most
    twice, is the price service. *)
Theorem fetchSbtcMetrics_requests :
  forall env log,
    exists m extra,
      fetchSbtcMetrics env log =
        (inr m, (log ++ [supplyUrl; teneroUrl] ++ extra)%list) /\
      (extra = [] \/ extra = [COINGECKO_PRICE] \/
       extra = [COINGECKO_PRICE; COINGECKO_PRICE]).
Proof.
  intros env log. run_metrics. unfold parseIntPer1e8, parseFloat.
  repeat match goal with
         | |- context [truthyValue ?v] => destruct (truthyValue v)
         | |- context [toString ?v] => destruct (toString v)
         | |- context [fetchBtcPrice ?e ?l] => rewrite (fetchBtcPrice_run e l)
         | _ => progress (rewrite ?getPropOpt_field; cbv beta iota)
         end;
    rewrite <- ?app_assoc;
    do 2 eexists; (split; [reflexivity|]); auto.
Qed.





(** X11: with every data service down the metrics degrade instead of
    failing: supply, holders and volume 0, price 97000, after three
    requests. *)
Theorem fetchSbtcMetrics_all_down :
  forall env log e1 e2 e3,
    net env (List.length log) supplyUrl = Rejected e1 ->
    net env (S (List.length log)) teneroUrl = Rejected e2 ->
    net env (S (S (List.length log))) COINGECKO_PRICE = Rejected e3 ->
    fetchSbtcMetrics env log =
    (inr (Metrics.mk (Given (JNum "0")) (Given (JNum "0"))
                     (Given (JNum "97000")) (Given (JNum "0"))),
     (log ++ [supplyUrl; teneroUrl; COINGECKO_PRICE])%list).
Proof.
  intros env log e1 e2 e3 H1 H2 H3.
  pose proof (fetchSbtcMetrics_run env log) as R. cbv zeta in R.
  rewrite H1, H2, H3 in R. apply R; reflexivity.
Qed.

Lemma fetchSbtcMetrics_all_down_witness :
  fetchSbtcMetrics (scripted []) [] =
  (inr (Metrics.mk (Given (JNum "0")) (Given (JNum "0"))
                   (Given (JNum "97000")) (Given (JNum "0"))),
   ([] ++ [supplyUrl; teneroUrl; COINGECKO_PRICE])%list).
Proof.
  apply (fetchSbtcMetrics_all_down (scripted []) []
           (TypeError "fetch failed") (TypeError "fetch failed")
           (TypeError "fetch failed")); reflexivity.
Defined.

(** ** The priced routes *)

(** The four handlers are one gate around four payloads. *)
Lemma handle_gate (Data : Type) gY gP gA gI (e : Endpoint) (env : Env)
    (c : PostContext) :
  handle Data gY gP gA gI e env c =
  match req_header (context c) "X-Payment" with
  | Some txid =>
      if truthy (req_header (context c) "X-Payment") then
        verification <- verifyPayment env txid ;;
        if negb (valid verification) then
          ret (mkHttp (FailureBody "Payment verification failed"
                         (error verification)) 403)
        else
          payload <- gatherOf Data gY gP gA gI e env c ;;
          ret (mkHttp
                 match e with
                 | AgentIntel => AgentDataBody true (caller verification) payload
                 | _ => DataBody true (caller verification) payload
                 end 200)
      else
        lift (paymentRequired env (context c) (pathOf e) (priceOf e)
                (Some (sbtcPriceOf e)))
  | None =>
      lift (paymentRequired env (context c) (pathOf e) (priceOf e)
              (Some (sbtcPriceOf e)))
  end.
Proof. destruct e; reflexivity. Qed.

Lemma handle_no_proof (Data : Type) gY gP gA gI (e : Endpoint) (env : Env)
    (c : PostContext) :
  truthy (req_header (context c) "X-Payment") = false ->
  handle Data gY gP gA gI e env c =
  lift (paymentRequired env (context c) (pathOf e) (priceOf e)
          (Some (sbtcPriceOf e))).
Proof.
  intros H. rewrite handle_gate.
  destruct (req_header (context c) "X-Payment"); [now rewrite H | reflexivity].
Qed.

Lemma handle_proof (Data : Type) gY gP gA gI (e : Endpoint) (env : Env)
    (c : PostContext) (txid : string) :
  req_header (context c) "X-Payment" = Some txid -> txid <> "" ->
  handle Data gY gP gA gI e env c =
  (verification <- verifyPayment env txid ;;
   if negb (valid verification) then
     ret (mkHttp (FailureBody "Payment verification failed"
                    (error verification)) 403)
   else
     payload <- gatherOf Data gY gP gA gI e env c ;;
     ret (mkHttp
            match e with
            | AgentIntel => AgentDataBody true (caller verification) payload
            | _ => DataBody true (caller verification) payload
            end 200)).
Proof.
  intros H Hne. rewrite handle_gate, H. cbn [truthy].
  apply String.eqb_neq in Hne. now rewrite Hne.
Qed.

(** X12: on each of the four routes a request whose [X-Payment] header
    is absent or empty is answered 402 without any upstream request.
    The challenge names the route and quotes its tier: 2000 uSTX or 2
    sats on the standard routes, 5000 uSTX or 5 sats on the premium
    ones. *)
Theorem priced_route_unpaid :
  forall (Data : Type) gY gP gA gI e env c log,
    clockInRange env ->
    truthy (req_header (context c) "X-Payment") = false ->
    exists resp base,
      handle Data gY gP gA gI e env c log = (inr resp, log) /\
      status resp = 402 /\
      challengeBase (body resp) = Some base /\
      resource base = pathOf e /\
      (forall b, body resp = StxBody b -> price (payment b) = priceOf e) /\
      (forall b, body resp = SbtcBody b ->
                 maxAmountRequired b = numberToString (sbtcPriceOf e)).
Proof.
  intros Data gY gP gA gI e env c log Hclock Hno.
  rewrite (handle_no_proof Data gY gP gA gI e env c Hno).
  destruct (getPaymentTokenType (context c)) eqn:Htok.
  - destruct (@paymentRequired_stx Data env (context c) (pathOf e) (priceOf e)
                (Some (sbtcPriceOf e)) Hclock (or_introl Htok))
      as (stamp & _ & _ & ->).
    do 2 eexists. split; [reflexivity|]. cbn [body status challengeBase].
    repeat split.
    + intros b Hb. injection Hb as <-. reflexivity.
    + intros b Hb. discriminate.
  - assert (Hs : sbtcPriceOf e <> 0) by (destruct e; discriminate).
    destruct (@paymentRequired_sbtc Data env (context c) (pathOf e) (priceOf e)
                (sbtcPriceOf e) Hclock Htok Hs) as (stamp & _ & _ & ->).
    do 2 eexists. split; [reflexivity|]. cbn [body status challengeBase].
    repeat split.
    + intros b Hb. discriminate.
    + intros b Hb. injection Hb as <-. reflexivity.
Qed.

Lemma priced_route_unpaid_witness :
  exists resp base,
    handle unit (fun _ => ret tt) (fun _ => ret tt) (fun _ => ret tt)
      (fun _ _ => ret tt) AgentIntel sampleWorld
      (post None (Some "sBTC") (Some "") (inr JNull)) [] = (inr resp, []) /\
    status resp = 402 /\
    challengeBase (body resp) = Some base /\
    resource base = "/agent-intel" /\
    (forall b, body resp = StxBody b -> price (payment b) = 5000) /\
    (forall b, body resp = SbtcBody b -> maxAmountRequired b = "5").
Proof.
  apply (priced_route_unpaid unit (fun _ => ret tt) (fun _ => ret tt)
           (fun _ => ret tt) (fun _ _ => ret tt) AgentIntel sampleWorld
           (post None (Some "sBTC") (Some "") (inr JNull)) []).
  - unfold clockInRange, maxTime. simpl. lia.
  - reflexivity.
Defined.

(** X13: on each of the four routes a proof token the verification
    rejects is answered 403 with the reason as [details]; the ledger
    lookup is the only upstream request and the payload is never
    computed. *)
Theorem priced_route_rejected :
  forall (Data : Type) gY gP gA gI e env c log txid v,
    req_header (context c) "X-Payment" = Some txid ->
    txid <> "" ->
    verdict env txid log = inr v ->
    valid v = false ->
    handle Data gY gP gA gI e env c log =
    (inr (mkHttp (FailureBody "Payment verification failed" (error v)) 403),
     (log ++ [txUrl txid])%list).
Proof.
  intros Data gY gP gA gI e env c log txid v Hh Hne Hv Hinvalid.
  rewrite (handle_proof Data gY gP gA gI e env c txid Hh Hne). unfold bind.
  pose proof (verifyPayment_log env txid log) as Hlog. unfold verdict in Hv.
  destruct (verifyPayment env txid log) as [r log']. cbn [fst snd] in Hv, Hlog.
  subst r log'. now rewrite Hinvalid.
Qed.

Lemma priced_route_rejected_witness :
  handle unit (fun _ => ret tt) (fun _ => ret tt) (fun _ => ret tt)
    (fun _ _ => ret tt) Alpha (worldWith (answering pendingTx))
    (post None None (Some "abc123") (inr JNull)) [] =
  (inr (mkHttp (FailureBody "Payment verification failed"
                  (Some "Transaction status: pending")) 403),
   ([] ++ [txUrl "abc123"])%list).
Proof.
  apply (priced_route_rejected unit (fun _ => ret tt) (fun _ => ret tt)
           (fun _ => ret tt) (fun _ _ => ret tt) Alpha
           (worldWith (answering pendingTx))
           (post None None (Some "abc123") (inr JNull)) [] "abc123"
           (mkVerify false (Some "Transaction status: pending") None)).
  - reflexivity.
  - discriminate.
  - reflexivity.
  - reflexivity.
Defined.

(** X14: on each of the four routes a proof token the ledger reports as
    a successful call to the payment contract releases the resource: the
    payload is computed after the ledger lookup and returned with status
    200, [paymentVerified: true] and the sender of the transaction,
    under the key [agentId] on [POST /agent-intel] and the key [caller]
    on the three other routes.  The handler has no catch of its own: an
    error thrown while the payload is computed is what the handler ends
    in. *)
Theorem priced_route_released :
  forall (Data : Type) gY gP gA gI e env c log txid tx,
    req_header (context c) "X-Payment" = Some txid ->
    txid <> "" ->
    found (ledgerOutcome env log txid) tx ->
    paysContract tx ->
    handle Data gY gP gA gI e env c log =
    match gatherOf Data gY gP gA gI e env c (log ++ [txUrl txid])%list with
    | (inr payload, log') =>
        (inr (mkHttp
                match e with
                | AgentIntel =>
                    AgentDataBody true (Some (senderAddress tx)) payload
                | _ => DataBody true (Some (senderAddress tx)) payload
                end 200), log')
    | (inl failure, log') => (inl failure, log')
    end.
Proof.
  intros Data gY gP gA gI e env c log txid tx Hh Hne Hf Hp.
  rewrite (handle_proof Data gY gP gA gI e env c txid Hh Hne). unfold bind.
  rewrite (verify_found _ _ _ _ Hf), (judge_pays _ Hp). cbn [valid negb caller].
  destruct (gatherOf Data gY gP gA gI e env c (log ++ [txUrl txid])%list)
    as [[failure | payload] log']; reflexivity.
Qed.

Lemma priced_route_released_witness :
  handle unit (fun _ => ret tt) (fun _ => ret tt) (fun _ => ret tt)
    (fun _ _ => ret tt) AgentIntel sampleWorld
    (post None None (Some "abc123") (inr JNull)) [] =
  (inr (mkHttp (AgentDataBody true (Some (JStr sampleSender)) tt) 200),
   [txUrl "abc123"]).
Proof.
  apply (priced_route_released unit (fun _ => ret tt) (fun _ => ret tt)
           (fun _ => ret tt) (fun _ _ => ret tt) AgentIntel sampleWorld
           (post None None (Some "abc123") (inr JNull)) [] "abc123" paidTx).
  - reflexivity.
  - discriminate.
  - apply found_answering; reflexivity.
  - repeat split.
Defined.

(** ** [POST /simulate] *)

Lemma simulate_no_proof (Sim : Type) simulationOf env c :
  truthy (req_header (context c) "X-Payment") = false ->
  simulateHandler Sim simulationOf env c = simulateChallenge Sim env c.
Proof.
  intros H. unfold simulateHandler.
  destruct (req_header (context c) "X-Payment"); [now rewrite H | reflexivity].
Qed.

Lemma simulate_proof (Sim : Type) simulationOf env c txid :
  req_header (context c) "X-Payment" = Some txid -> txid <> "" ->
  simulateHandler Sim simulationOf env c =
  (verification <- verifyPayment env txid ;;
   if negb (valid verification) then
     ret (mkSim (SimGate (FailureBody "Payment verification failed"
                            (error verification))) 403)
   else
     body <- lift (req_json c) ;;
     btcPrice <- fetchBtcPrice env ;;
     selected <- lift (findProtocol body fetchProtocolData) ;;
     match selected with
     | None =>
         ret (mkSim (SimNotFound "Protocol not found"
                       (List.map protocol fetchProtocolData)) 400)
     | Some p =>
         amountBtc <- lift (getProp body "amountBtc") ;;
         _ <- lift (toNumber amountBtc) ;;
         _ <- lift (toNumber btcPrice) ;;
         given <- lift (getProp body "leverage") ;;
         let leverage := if truthyValue given then given else JNum "1" in
         action <- lift (getProp body "action") ;;
         _ <- (if strictNeqStr action "loop" then ret tt
               else lift (toNumber leverage)) ;;
         ret (mkSim (SimResult (simulationOf env body btcPrice p)) 200)
     end).
Proof.
  intros H Hne. unfold simulateHandler. rewrite H. cbn [truthy].
  apply String.eqb_neq in Hne. now rewrite Hne.
Qed.

(** The handler once the payment is verified and the body parsed. *)
Lemma simulate_paid (Sim : Type) simulationOf env c log txid tx body :
  req_header (context c) "X-Payment" = Some txid -> txid <> "" ->
  found (ledgerOutcome env log txid) tx -> paysContract tx ->
  req_json c = inr body ->
  let btcPrice := btcPriceOf (net env (S (List.length log)) COINGECKO_PRICE) in
  simulateHandler Sim simulationOf env c log =
  match findProtocol body fetchProtocolData with
  | inl e => (inl e, (log ++ [txUrl txid; COINGECKO_PRICE])%list)
  | inr None =>
      (inr (mkSim (SimNotFound "Protocol not found"
                     (List.map protocol fetchProtocolData)) 400),
       (log ++ [txUrl txid; COINGECKO_PRICE])%list)
  | inr (Some p) =>
      match simulateChecks body btcPrice with
      | inl e => (inl e, (log ++ [txUrl txid; COINGECKO_PRICE])%list)
      | inr _ =>
          (inr (mkSim (SimResult (simulationOf env body btcPrice p)) 200),
           (log ++ [txUrl txid; COINGECKO_PRICE])%list)
      end
  end.
Proof.
  intros Hh Hne Hf Hp Hbody. cbv zeta.
  rewrite (simulate_proof Sim simulationOf env c txid Hh Hne). unfold bind.
  rewrite (verify_found _ _ _ _ Hf), (judge_pays _ Hp). cbn [valid negb].
  rewrite Hbody. cbn [lift ret]. rewrite fetchBtcPrice_run.
  rewrite length_app, Nat.add_1_r, <- app_assoc. cbn [app].
  destruct (findProtocol body fetchProtocolData) as [e | [p|]];
    try reflexivity.
  unfold simulateChecks, lift, ret, throw.
  repeat match goal with
         | |- context [getProp ?v ?k] => destruct (getProp v k)
         | |- context [toNumber ?v] => destruct (toNumber v)
         | |- context [strictNeqStr ?v ?k] => destruct (strictNeqStr v k)
         end; reflexivity.
Qed.

(** The conversions go through on a body whose amount, and leverage if
    the action is "loop", convert, with a price that converts. *)
Lemma simulateChecks_ok (body btcPrice : JsValue) :
  nullish body = false ->
  converts (field body "amountBtc") = true ->
  converts btcPrice = true ->
  (field body "action" = JStr "loop" ->
   converts (field body "leverage") = true) ->
  simulateChecks body btcPrice = inr tt.
Proof.
  intros Hn Ha Hb Hl. unfold simulateChecks, toNumber.
  rewrite !(getProp_field _ _ Hn).
  unfold converts in Ha, Hb.
  destruct (toString (field body "amountBtc")); [discriminate|].
  destruct (toString btcPrice); [discriminate|].
  destruct (strictNeqStr (field body "action") "loop") eqn:E; [reflexivity|].
  apply strictNeqStr_false in E. specialize (Hl E). unfold converts in Hl.
  destruct (truthyValue (field body "leverage")); [|reflexivity].
  now destruct (toString (field body "leverage")).
Qed.

Lemma field_string_object (body : JsValue) (k s : string) :
  field body k = JStr s -> nullish body = false.
Proof.
  intros H. destruct (nullish body) eqn:Hn; [|reflexivity].
  rewrite (field_nullish _ _ Hn) in H. discriminate.
Qed.

Lemma matchesProtocol_string (body : JsValue) (wanted : string) (p : Protocol) :
  field body "protocol" = JStr wanted ->
  matchesProtocol body p =
  inr (includes (toLowerCase (protocol p)) (toLowerCase wanted)).
Proof.
  intros H. unfold matchesProtocol.
  destruct (nullish body) eqn:Hn.
  { rewrite (field_nullish _ _ Hn) in H. discriminate. }
  now rewrite (getProp_field _ _ Hn), H.
Qed.

Lemma findProtocol_none (body : JsValue) (wanted : string) (ps : list Protocol) :
  field body "protocol" = JStr wanted ->
  (forall p, In p ps ->
             includes (toLowerCase (protocol p)) (toLowerCase wanted) = false) ->
  findProtocol body ps = inr None.
Proof.
  intros Hw. induction ps as [|p ps IH]; intros H; [reflexivity|].
  cbn [findProtocol]. rewrite (matchesProtocol_string _ _ _ Hw).
  rewrite (H p (or_introl eq_refl)). apply IH.
  intros q Hq. apply H. now right.
Qed.

Lemma findProtocol_first (body : JsValue) (wanted : string)
    (before after : list Protocol) (p : Protocol) :
  field body "protocol" = JStr wanted ->
  (forall q, In q before ->
             includes (toLowerCase (protocol q)) (toLowerCase wanted) = false) ->
  includes (toLowerCase (protocol p)) (toLowerCase wanted) = true ->
  findProtocol body (before ++ p :: after)%list = inr (Some p).
Proof.
  intros Hw. induction before as [|q before IH]; intros H Hp.
  - cbn [app findProtocol]. now rewrite (matchesProtocol_string _ _ _ Hw), Hp.
  - cbn [app findProtocol]. rewrite (matchesProtocol_string _ _ _ Hw).
    rewrite (H q (or_introl eq_refl)). apply IH; [|exact Hp].
    intros r Hr. apply H. now right.
Qed.

Lemma includes_empty (hay : string) : includes hay "" = true.
Proof. now destruct hay. Qed.

Lemma paymentRequired_base {Data} env c path price sbtcPrice :
  clockInRange env ->
  exists r base,
    @paymentRequired Data env c path price sbtcPrice = inr r /\
    status r = 402 /\
    challengeBase (body r) = Some base /\
    resource base = path.
Proof.
  intros Hclock.
  destruct (getPaymentTokenType c) eqn:Htok.
  - destruct (@paymentRequired_stx Data env c path price sbtcPrice Hclock
                (or_introl Htok)) as (stamp & _ & _ & ->).
    do 2 eexists. repeat split.
  - destruct (truthyNum sbtcPrice) eqn:Ht.
    + destruct sbtcPrice as [sats|]; [|discriminate].
      assert (Hs : sats <> 0).
      { simpl in Ht. apply negb_true_iff, Z.eqb_neq in Ht. exact Ht. }
      destruct (@paymentRequired_sbtc Data env c path price sats Hclock
                  Htok Hs) as (stamp & _ & _ & ->).
      do 2 eexists. repeat split.
    + destruct (@paymentRequired_stx Data env c path price sbtcPrice Hclock
                  (or_intror Ht)) as (stamp & _ & _ & ->).
      do 2 eexists. repeat split.
Qed.

(** X15: [POST /simulate] is behind the same gate.  Without a proof
    token the answer is the 402 challenge at the premium price, and
    nothing is fetched. *)
Theorem simulate_unpaid :
  forall (Sim : Type) simulationOf env c log,
    clockInRange env ->
    truthy (req_header (context c) "X-Payment") = false ->
    exists r base,
      @paymentRequired Empty_set env (context c) "/simulate" 5000 (Some 5) = inr r /\
      simulateHandler Sim simulationOf env c log =
        (inr (mkSim (SimGate (body r)) 402), log) /\
      challengeBase (body r) = Some base /\
      resource base = "/simulate".
Proof.
  intros Sim simulationOf env c log Hclock Hno.
  rewrite (simulate_no_proof Sim simulationOf env c Hno).
  unfold simulateChallenge.
  change CONTRACT.premiumPrice with 5000. change CONTRACT.premiumPriceSbtc with 5.
  destruct (@paymentRequired_base Empty_set env (context c) "/simulate"
              5000 (Some 5) Hclock) as (r & base & -> & Hst & Hbase & Hres).
  exists r, base. unfold gateResponse, ret. rewrite Hst. repeat split; assumption.
Qed.

Lemma simulate_unpaid_witness :
  exists r base,
    @paymentRequired Empty_set sampleWorld
      (context (post None None None (inr (simulateBody (JStr "alex")))))
      "/simulate" 5000 (Some 5) = inr r /\
    simulateHandler unit (fun _ _ _ _ => tt) sampleWorld
      (post None None None (inr (simulateBody (JStr "alex")))) [] =
      (inr (mkSim (SimGate (body r)) 402), []) /\
    challengeBase (body r) = Some base /\
    resource base = "/simulate".
Proof.
  apply (simulate_unpaid unit (fun _ _ _ _ => tt) sampleWorld
           (post None None None (inr (simulateBody (JStr "alex")))) []).
  - unfold clockInRange, maxTime. simpl. lia.
  - reflexivity.
Defined.

(** X16: a rejected proof token on [POST /simulate] is answered 403
    before the request body is read: the answer is the same whether or
    not the body is JSON, and the ledger lookup is the only request. *)
Theorem simulate_rejected :
  forall (Sim : Type) simulationOf env c log txid v,
    req_header (context c) "X-Payment" = Some txid ->
    txid <> "" ->
    verdict env txid log = inr v ->
    valid v = false ->
    simulateHandler Sim simulationOf env c log =
    (inr (mkSim (SimGate (FailureBody "Payment verification failed" (error v)))
                403),
     (log ++ [txUrl txid])%list).
Proof.
  intros Sim simulationOf env c log txid v Hh Hne Hv Hinvalid.
  rewrite (simulate_proof Sim simulationOf env c txid Hh Hne). unfold bind.
  pose proof (verifyPayment_log env txid log) as Hlog. unfold verdict in Hv.
  destruct (verifyPayment env txid log) as [r log']. cbn [fst snd] in Hv, Hlog.
  subst r log'. now rewrite Hinvalid.
Qed.

Lemma simulate_rejected_witness :
  simulateHandler unit (fun _ _ _ _ => tt) (worldWith notFound404)
    (post None None (Some "abc123")
       (inl (mkError "SyntaxError" "Unexpected end of JSON input"))) [] =
  (inr (mkSim (SimGate (FailureBody "Payment verification failed"
                          (Some "Transaction not found"))) 403),
   ([] ++ [txUrl "abc123"])%list).
Proof.
  apply (simulate_rejected unit (fun _ _ _ _ => tt) (worldWith notFound404)
           (post None None (Some "abc123")
              (inl (mkError "SyntaxError" "Unexpected end of JSON input")))
           [] "abc123" (mkVerify false (Some "Transaction not found") None)).
  - reflexivity.
  - discriminate.
  - reflexivity.
  - reflexivity.
Defined.

(** X17: a paid simulation for a protocol the table does not know is
    answered 400 "Protocol not found" with the four known names; the
    price was fetched all the same.  The name is ASCII and is contained,
    case ignored, in no name of the table. *)
Theorem simulate_unknown_protocol :
  forall (Sim : Type) simulationOf env c log txid tx body wanted,
    req_header (context c) "X-Payment" = Some txid ->
    txid <> "" ->
    found (ledgerOutcome env log txid) tx ->
    paysContract tx ->
    req_json c = inr body ->
    field body "protocol" = JStr wanted ->
    isAscii wanted = true ->
    (forall p, In p fetchProtocolData ->
               includes (toLowerCase (protocol p)) (toLowerCase wanted) = false) ->
    simulateHandler Sim simulationOf env c log =
    (inr (mkSim (SimNotFound "Protocol not found"
                   ["Zest Protocol"; "ALEX"; "Velar"; "StackingDAO"]) 400),
     (log ++ [txUrl txid; COINGECKO_PRICE])%list).
Proof.
  intros Sim simulationOf env c log txid tx body wanted Hh Hne Hf Hp Hb Hw _ Hno.
  rewrite (simulate_paid Sim simulationOf env c log txid tx body Hh Hne Hf Hp Hb).
  now rewrite (findProtocol_none body wanted fetchProtocolData Hw Hno).
Qed.

Lemma simulate_unknown_protocol_witness :
  simulateHandler unit (fun _ _ _ _ => tt) paidWorld
    (post None None (Some "abc123") (inr (simulateBody (JStr "Bitflow")))) [] =
  (inr (mkSim (SimNotFound "Protocol not found"
                 ["Zest Protocol"; "ALEX"; "Velar"; "StackingDAO"]) 400),
   ([] ++ [txUrl "abc123"; COINGECKO_PRICE])%list).
Proof.
  apply (simulate_unknown_protocol unit (fun _ _ _ _ => tt) paidWorld
           (post None None (Some "abc123") (inr (simulateBody (JStr "Bitflow"))))
           [] "abc123" paidTx (simulateBody (JStr "Bitflow")) "Bitflow").
  - reflexivity.
  - discriminate.
  - apply found_answering; reflexivity.
  - repeat split.
  - reflexivity.
  - reflexivity.
  - reflexivity.
  - intros p [<- | [<- | [<- | [<- | []]]]]; reflexivity.
Defined.

(** X18: the protocol simulated is the first entry of the table whose
    name contains the requested (ASCII) name, case ignored; the
    simulation is built from the price [fetchBtcPrice] returned and
    answered 200.  This is so when the conversions to number go through:
    the amount and the price convert to a primitive, and so does the
    leverage when the action is "loop". *)
Theorem simulate_first_match :
  forall (Sim : Type) simulationOf env c log txid tx body wanted before p after,
    req_header (context c) "X-Payment" = Some txid ->
    txid <> "" ->
    found (ledgerOutcome env log txid) tx ->
    paysContract tx ->
    req_json c = inr body ->
    field body "protocol" = JStr wanted ->
    isAscii wanted = true ->
    fetchProtocolData = (before ++ p :: after)%list ->
    (forall q, In q before ->
               includes (toLowerCase (protocol q)) (toLowerCase wanted) = false) ->
    includes (toLowerCase (protocol p)) (toLowerCase wanted) = true ->
    converts (field body "amountBtc") = true ->
    converts (btcPriceOf (net env (S (List.length log)) COINGECKO_PRICE)) = true ->
    (field body "action" = JStr "loop" ->
     converts (field body "leverage") = true) ->
    simulateHandler Sim simulationOf env c log =
    (inr (mkSim (SimResult
                   (simulationOf env body
                      (btcPriceOf (net env (S (List.length log)) COINGECKO_PRICE))
                      p)) 200),
     (log ++ [txUrl txid; COINGECKO_PRICE])%list).
Proof.
  intros Sim simulationOf env c log txid tx body wanted before p after
         Hh Hne Hf Hp Hb Hw _ Htable Hbefore Hmatch Ha Hq Hl.
  rewrite (simulate_paid Sim simulationOf env c log txid tx body Hh Hne Hf Hp Hb).
  rewrite Htable.
  rewrite (findProtocol_first body wanted before after p Hw Hbefore Hmatch).
  now rewrite (simulateChecks_ok body _ (field_string_object _ _ _ Hw) Ha Hq Hl).
Qed.

Lemma simulate_first_match_witness :
  simulateHandler (JsValue * Protocol) (fun _ _ btc p => (btc, p)) paidWorld
    (post None None (Some "abc123") (inr (simulateBody (JStr "DAO")))) [] =
  (inr (mkSim (SimResult (JNum "64000", stackingDao)) 200),
   ([] ++ [txUrl "abc123"; COINGECKO_PRICE])%list).
Proof.
  apply (simulate_first_match (JsValue * Protocol) (fun _ _ btc p => (btc, p))
           paidWorld
           (post None None (Some "abc123") (inr (simulateBody (JStr "DAO"))))
           [] "abc123" paidTx (simulateBody (JStr "DAO")) "DAO"
           (firstn 3 fetchProtocolData) stackingDao []).
  - reflexivity.
  - discriminate.
  - apply found_answering; reflexivity.
  - repeat split.
  - reflexivity.
  - reflexivity.
  - reflexivity.
  - reflexivity.
  - intros q [<- | [<- | [<- | []]]]; reflexivity.
  - reflexivity.
  - reflexivity.
  - reflexivity.
  - discriminate.
Defined.

(** X19: an empty protocol name is not rejected: it is contained in
    every name, so a paid simulation that asks for "" is run on the
    first protocol of the table, Zest Protocol, and answered 200 when
    the conversions to number go through. *)
Theorem simulate_empty_name :
  forall (Sim : Type) simulationOf env c log txid tx body,
    req_header (context c) "X-Payment" = Some txid ->
    txid <> "" ->
    found (ledgerOutcome env log txid) tx ->
    paysContract tx ->
    req_json c = inr body ->
    field body "protocol" = JStr "" ->
    converts (field body "amountBtc") = true ->
    converts (btcPriceOf (net env (S (List.length log)) COINGECKO_PRICE)) = true ->
    (field body "action" = JStr "loop" ->
     converts (field body "leverage") = true) ->
    exists p,
      protocol p = "Zest Protocol" /\
      simulateHandler Sim simulationOf env c log =
      (inr (mkSim (SimResult
                     (simulationOf env body
                        (btcPriceOf (net env (S (List.length log)) COINGECKO_PRICE))
                        p)) 200),
       (log ++ [txUrl txid; COINGECKO_PRICE])%list).
Proof.
  intros Sim simulationOf env c log txid tx body Hh Hne Hf Hp Hb Hw Ha Hq Hl.
  exists zest. split; [reflexivity|].
  rewrite (simulate_paid Sim simulationOf env c log txid tx body Hh Hne Hf Hp Hb).
  change fetchProtocolData with ([] ++ zest :: tl fetchProtocolData)%list.
  rewrite (findProtocol_first body "" [] (tl fetchProtocolData) zest Hw);
    [| intros q [] | apply includes_empty].
  now rewrite (simulateChecks_ok body _ (field_string_object _ _ _ Hw) Ha Hq Hl).
Qed.

Lemma simulate_empty_name_witness :
  exists p,
    protocol p = "Zest Protocol" /\
    simulateHandler Protocol (fun _ _ _ p => p) paidWorld
      (post None None (Some "abc123") (inr (simulateBody (JStr "")))) [] =
    (inr (mkSim (SimResult p) 200),
     ([] ++ [txUrl "abc123"; COINGECKO_PRICE])%list).
Proof.
  apply (simulate_empty_name Protocol (fun _ _ _ p => p) paidWorld
           (post None None (Some "abc123") (inr (simulateBody (JStr ""))))
           [] "abc123" paidTx (simulateBody (JStr ""))).
  - reflexivity.
  - discriminate.
  - apply found_answering; reflexivity.
  - repeat split.
  - reflexivity.
  - reflexivity.
  - reflexivity.
  - reflexivity.
  - discriminate.
Defined.

(** X20: on a paid simulation whose body has no string under
    [protocol] (the key is missing, or holds a number, [null], ...; or
    the body is [null]) the handler produces no response of its own: it
    ends in a [TypeError], after the payment was verified and the price
    fetched. *)
Theorem simulate_missing_protocol :
  forall (Sim : Type) simulationOf env c log txid tx body,
    req_header (context c) "X-Payment" = Some txid ->
    txid <> "" ->
    found (ledgerOutcome env log txid) tx ->
    paysContract tx ->
    req_json c = inr body ->
    (forall s, field body "protocol" <> JStr s) ->
    exists failure,
      err_name failure = "TypeError" /\
      simulateHandler Sim simulationOf env c log =
      (inl failure, (log ++ [txUrl txid; COINGECKO_PRICE])%list).
Proof.
  intros Sim simulationOf env c log txid tx body Hh Hne Hf Hp Hb Hno.
  rewrite (simulate_paid Sim simulationOf env c log txid tx body Hh Hne Hf Hp Hb).
  cbn [fetchProtocolData findProtocol]. unfold matchesProtocol.
  destruct (nullish body) eqn:Hn.
  - destruct body; try discriminate; cbn [getProp];
      eexists; (split; [|reflexivity]); reflexivity.
  - rewrite (getProp_field _ _ Hn).
    destruct (field body "protocol") as [| |b|n|s|l|o] eqn:E;
      try (eexists; (split; [|reflexivity]); reflexivity).
    exfalso. exact (Hno s eq_refl).
Qed.

Lemma simulate_missing_protocol_witness :
  exists failure,
    err_name failure = "TypeError" /\
    simulateHandler unit (fun _ _ _ _ => tt) paidWorld
      (post None None (Some "abc123")
         (inr (JObj [("action", JStr "deposit"); ("amountBtc", JNum "1")]))) [] =
    (inl failure, ([] ++ [txUrl "abc123"; COINGECKO_PRICE])%list).
Proof.
  apply (simulate_missing_protocol unit (fun _ _ _ _ => tt) paidWorld
           (post None None (Some "abc123")
              (inr (JObj [("action", JStr "deposit"); ("amountBtc", JNum "1")])))
           [] "abc123" paidTx
           (JObj [("action", JStr "deposit"); ("amountBtc", JNum "1")])).
  - reflexivity.
  - discriminate.
  - apply found_answering; reflexivity.
  - repeat split.
  - reflexivity.
  - intros s. discriminate.
Defined.

(** X21: on a paid simulation whose body is not JSON the handler
    produces no response of its own either: it ends in the parse error,
    after the ledger lookup and before any other request. *)
Theorem simulate_malformed_body :
  forall (Sim : Type) simulationOf env c log txid tx failure,
    req_header (context c) "X-Payment" = Some txid ->
    txid <> "" ->
    found (ledgerOutcome env log txid) tx ->
    paysContract tx ->
    req_json c = inl failure ->
    simulateHandler Sim simulationOf env c log =
    (inl failure, (log ++ [txUrl txid])%list).
Proof.
  intros Sim simulationOf env c log txid tx failure Hh Hne Hf Hp Hb.
  rewrite (simulate_proof Sim simulationOf env c txid Hh Hne). unfold bind.
  rewrite (verify_found _ _ _ _ Hf), (judge_pays _ Hp). cbn [valid negb].
  now rewrite Hb.
Qed.

Lemma simulate_malformed_body_witness :
  simulateHandler unit (fun _ _ _ _ => tt) paidWorld
    (post None None (Some "abc123")
       (inl (mkError "SyntaxError" "Unexpected end of JSON input"))) [] =
  (inl (mkError "SyntaxError" "Unexpected end of JSON input"),
   ([] ++ [txUrl "abc123"])%list).
Proof.
  apply (simulate_malformed_body unit (fun _ _ _ _ => tt) paidWorld
           (post None None (Some "abc123")
              (inl (mkError "SyntaxError" "Unexpected end of JSON input")))
           [] "abc123" paidTx).
  - reflexivity.
  - discriminate.
  - apply found_answering; reflexivity.
  - repeat split.
  - reflexivity.
Defined.

(** X22: the names the 400 answer lists can be sent back.  A paid
    simulation that asks for a protocol by its exact name, as listed,
    is run on that very protocol and on no other whose name happens to
    contain it, and answered 200 when the conversions to number go
    through. *)
Theorem simulate_listed_name :
  forall (Sim : Type) simulationOf env c log txid tx body p,
    req_header (context c) "X-Payment" = Some txid ->
    txid <> "" ->
    found (ledgerOutcome env log txid) tx ->
    paysContract tx ->
    req_json c = inr body ->
    In p fetchProtocolData ->
    field body "protocol" = JStr (protocol p) ->
    converts (field body "amountBtc") = true ->
    converts (btcPriceOf (net env (S (List.length log)) COINGECKO_PRICE)) = true ->
    (field body "action" = JStr "loop" ->
     converts (field body "leverage") = true) ->
    simulateHandler Sim simulationOf env c log =
    (inr (mkSim (SimResult
                   (simulationOf env body
                      (btcPriceOf (net env (S (List.length log)) COINGECKO_PRICE))
                      p)) 200),
     (log ++ [txUrl txid; COINGECKO_PRICE])%list).
Proof.
  intros Sim simulationOf env c log txid tx body p Hh Hne Hf Hp Hb Hin Hw Ha Hq Hl.
  rewrite (simulate_paid Sim simulationOf env c log txid tx body Hh Hne Hf Hp Hb).
  assert (Hfind : findProtocol body fetchProtocolData = inr (Some p)).
  { destruct Hin as [<- | [<- | [<- | [<- | []]]]].
    - apply (findProtocol_first body _ [] (skipn 1 fetchProtocolData) _ Hw);
        [intros q [] | reflexivity].
    - apply (findProtocol_first body _ (firstn 1 fetchProtocolData)
               (skipn 2 fetchProtocolData) _ Hw);
        [intros q [<- | []]; reflexivity | reflexivity].
    - apply (findProtocol_first body _ (firstn 2 fetchProtocolData)
               (skipn 3 fetchProtocolData) _ Hw);
        [intros q [<- | [<- | []]]; reflexivity | reflexivity].
    - apply (findProtocol_first body _ (firstn 3 fetchProtocolData)
               (skipn 4 fetchProtocolData) _ Hw);
        [intros q [<- | [<- | [<- | []]]]; reflexivity | reflexivity]. }
  rewrite Hfind.
  now rewrite (simulateChecks_ok body _ (field_string_object _ _ _ Hw) Ha Hq Hl).
Qed.

Lemma simulate_listed_name_witness :
  simulateHandler Protocol (fun _ _ _ p => p) paidWorld
    (post None None (Some "abc123") (inr (simulateBody (JStr "StackingDAO")))) [] =
  (inr (mkSim (SimResult stackingDao) 200),
   ([] ++ [txUrl "abc123"; COINGECKO_PRICE])%list).
Proof.
  apply (simulate_listed_name Protocol (fun _ _ _ p => p) paidWorld
           (post None None (Some "abc123")
              (inr (simulateBody (JStr "StackingDAO"))))
           [] "abc123" paidTx (simulateBody (JStr "StackingDAO")) stackingDao).
  - reflexivity.
  - discriminate.
  - apply found_answering; reflexivity.
  - repeat split.
  - reflexivity.
  - right; right; right; left; reflexivity.
  - reflexivity.
  - reflexivity.
  - reflexivity.
  - discriminate.
Defined.

(** X24: a paid simulation for a listed protocol whose [amountBtc] cannot
    be converted to a number (an object with a key [toString]) gets no
    response from the handler: the multiplication throws, after the
    payment was verified and the price fetched. *)
Theorem simulate_unconvertible_amount :
  forall (Sim : Type) simulationOf env c log txid tx body p failure,
    req_header (context c) "X-Payment" = Some txid ->
    txid <> "" ->
    found (ledgerOutcome env log txid) tx ->
    paysContract tx ->
    req_json c = inr body ->
    In p fetchProtocolData ->
    field body "protocol" = JStr (protocol p) ->
    toString (field body "amountBtc") = inl failure ->
    simulateHandler Sim simulationOf env c log =
    (inl failure, (log ++ [txUrl txid; COINGECKO_PRICE])%list).
Proof.
  intros Sim simulationOf env c log txid tx body p failure
         Hh Hne Hf Hp Hb Hin Hw Ha.
  rewrite (simulate_paid Sim simulationOf env c log txid tx body Hh Hne Hf Hp Hb).
  assert (Hfind : findProtocol body fetchProtocolData = inr (Some p)).
  { destruct Hin as [<- | [<- | [<- | [<- | []]]]].
    - apply (findProtocol_first body _ [] (skipn 1 fetchProtocolData) _ Hw);
        [intros q [] | reflexivity].
    - apply (findProtocol_first body _ (firstn 1 fetchProtocolData)
               (skipn 2 fetchProtocolData) _ Hw);
        [intros q [<- | []]; reflexivity | reflexivity].
    - apply (findProtocol_first body _ (firstn 2 fetchProtocolData)
               (skipn 3 fetchProtocolData) _ Hw);
        [intros q [<- | [<- | []]]; reflexivity | reflexivity].
    - apply (findProtocol_first body _ (firstn 3 fetchProtocolData)
               (skipn 4 fetchProtocolData) _ Hw);
        [intros q [<- | [<- | [<- | []]]]; reflexivity | reflexivity]. }
  rewrite Hfind. unfold simulateChecks, toNumber.
  rewrite (getProp_field _ _ (field_string_object _ _ _ Hw)). now rewrite Ha.
Qed.

Lemma simulate_unconvertible_amount_witness :
  simulateHandler unit (fun _ _ _ _ => tt) paidWorld
    (post None None (Some "abc123") (inr oddAmountBody)) [] =
  (inl notPrimitive, ([] ++ [txUrl "abc123"; COINGECKO_PRICE])%list).
Proof.
  apply (simulate_unconvertible_amount unit (fun _ _ _ _ => tt) paidWorld
           (post None None (Some "abc123") (inr oddAmountBody))
           [] "abc123" paidTx oddAmountBody alex notPrimitive).
  - reflexivity.
  - discriminate.
  - apply found_answering; reflexivity.
  - repeat split.
  - reflexivity.
  - right; left; reflexivity.
  - reflexivity.
  - reflexivity.
Defined.
